(** * Sentiments_Analysis: the review pipeline of [app.py]

    A shallow embedding of the Flask application [app.py]: the upload
    filter [allowed_file], the ingestion step [process_file], the keyword
    classifier [classify_sentiment], the Groq client [analyze_sentiment]
    with its retry loop, and the request handler [upload_file] with the
    counting loop and the rounded proportions.

    Python strings are [string]s of 8-bit characters (ASCII text), Python
    [int]s are [Z], and a Python [float] is a dyadic number [Float m e]
    standing for [m * 2^e], produced only by correctly rounded operations.
    Effects (HTTP posts, [time.sleep], [flash]) are events appended to a
    chronological log; Python exceptions are the [Raise] results of a small
    state-and-error monad.  A decoded JSON body is a [pyvalue], read with
    the dynamic checks of the interpreter: a body of another shape than
    the endpoint documents makes the code raise.  The debugging [print]
    calls of the source write to standard output only and are left out of
    the log. *)

From Stdlib Require Import Bool Ascii String List ZArith QArith Qpower Lia Lqa.
From Stdlib Require Import SpecFloat.
Import ListNotations.

Local Open Scope string_scope.
Local Open Scope list_scope.
Local Open Scope Z_scope.

(* ================================================================== *)
(** ** Python strings *)

(** [c.lower()] on one ASCII character: 'A'..'Z' move to 'a'..'z'. *)
Definition is_upper (c : ascii) : bool :=
  let n := nat_of_ascii c in (65 <=? n)%nat && (n <=? 90)%nat.

Definition lower_char (c : ascii) : ascii :=
  if is_upper c then ascii_of_nat (nat_of_ascii c + 32) else c.

(** [s.lower()] *)
Fixpoint py_lower (s : string) : string :=
  match s with
  | EmptyString => EmptyString
  | String c s' => String (lower_char c) (py_lower s')
  end.

(** [s.startswith(p)] *)
Fixpoint py_startswith (s p : string) : bool :=
  match p, s with
  | EmptyString, _ => true
  | String _ _, EmptyString => false
  | String a p', String b s' => Ascii.eqb a b && py_startswith s' p'
  end.

(** [p in s] for strings: [p] occurs in [s] as a contiguous substring. *)
Fixpoint py_contains (p s : string) : bool :=
  py_startswith s p ||
  match s with
  | EmptyString => false
  | String _ s' => py_contains p s'
  end.

(** [s.endswith(p)] *)
Fixpoint py_endswith (s p : string) : bool :=
  String.eqb s p ||
  match s with
  | EmptyString => false
  | String _ s' => py_endswith s' p
  end.

(** The split of [s] at its last occurrence of [sep], when there is one. *)
Fixpoint split_last (sep : ascii) (s : string) : option (string * string) :=
  match s with
  | EmptyString => None
  | String c s' =>
      match split_last sep s' with
      | Some (a, b) => Some (String c a, b)
      | None => if Ascii.eqb c sep then Some (EmptyString, s') else None
      end
  end.

(** [s.rsplit(sep, 1)] for a one-character separator. *)
Definition py_rsplit1 (sep : ascii) (s : string) : list string :=
  match split_last sep s with
  | Some (a, b) => [a; b]
  | None => [s]
  end.

(** [x in xs] for a collection of strings. *)
Definition str_in (x : string) (xs : list string) : bool :=
  existsb (String.eqb x) xs.

(** A Python [dict] with string keys, as an association list in insertion
    order; [k in d], [d.get(k, default)]. *)
Definition dict (V : Type) := list (string * V).

Definition dict_lookup {V} (k : string) (d : dict V) : option V :=
  match find (fun kv => String.eqb (fst kv) k) d with
  | Some kv => Some (snd kv)
  | None => None
  end.

Definition dict_has {V} (k : string) (d : dict V) : bool :=
  match dict_lookup k d with Some _ => true | None => false end.

Definition dict_get {V} (k : string) (default : V) (d : dict V) : V :=
  match dict_lookup k d with Some v => v | None => default end.

Definition dict_keys {V} (d : dict V) : list string := map fst d.

(* ================================================================== *)
(** ** Python numbers: [int / int] and [round(x, ndigits)] *)

(** A finite Python [float]: the dyadic number [m * 2^e]. *)
Inductive pyfloat := Float (m e : Z).

Definition F2Q (x : pyfloat) : Q :=
  match x with Float m e => inject_Z m * (2 # 1) ^ e end.

(** Rounding of the quotient [a / b] to the nearest integer, ties to the
    even one ([0 <= a], [0 < b]). *)
Definition rne_div (a b : Z) : Z :=
  let q := a / b in
  let r := a mod b in
  if 2 * r <? b then q
  else if b <? 2 * r then q + 1
  else if Z.even q then q else q + 1.

(** The binary64 number nearest to [a / b] for [0 < a], [0 < b], ties to
    even, with gradual underflow and no upper bound on the exponent (the
    caller checks for overflow).  [ex] is [floor (log2 (a / b))]; the
    significand has 53 bits, and the exponent of its last bit is at
    least -1074. *)
Definition nearest_pos (a b : Z) : pyfloat :=
  let s := Z.log2_up b in
  let ex := Z.log2 (a * 2 ^ s / b) - s in
  let e := Z.max (ex - 52) (-1074) in
  let m := if 0 <=? e then rne_div a (b * 2 ^ e)
           else rne_div (a * 2 ^ (- e)) b in
  if m =? 2 ^ 53 then Float (2 ^ 52) (e + 1) else Float m e.

Definition nearest (a b : Z) : pyfloat :=
  if a =? 0 then Float 0 0
  else match nearest_pos (Z.abs a) (Z.abs b) with
       | Float m e => Float (Z.sgn a * Z.sgn b * m) e
       end.

Definition overflows (x : pyfloat) : bool :=
  match x with Float m e => 2 ^ 1024 <=? Z.abs m * 2 ^ e end.

(** Python exceptions that the modelled code can let escape. *)
Inductive exn :=
| ZeroDivisionError
| OverflowError
| IndexError
| KeyError (key : string)
| TypeError
| AttributeError
| ParserError (details : string).

Inductive Res (A : Type) :=
| Ok (a : A)
| Raise (e : exn).
Arguments Ok {A} a.
Arguments Raise {A} e.

(** [a / b] on two [int]s: the correctly rounded quotient. *)
Definition int_truediv (a b : Z) : Res pyfloat :=
  if b =? 0 then Raise ZeroDivisionError
  else
    let x := nearest a b in
    if overflows x then Raise OverflowError else Ok x.

(** The integer nearest to [x * 10^ndigits], ties to even, on the exact
    value of the float [x]. *)
Definition scaled_round (x : pyfloat) (ndigits : nat) : Z :=
  let scale := 10 ^ Z.of_nat ndigits in
  match x with
  | Float m e =>
      if 0 <=? e then m * 2 ^ e * scale
      else Z.sgn m * rne_div (Z.abs m * scale) (2 ^ (- e))
  end.

(** [round(x, ndigits)] for [0 <= ndigits]: [x] is rounded to a decimal
    with [ndigits] digits after the point on its exact value, and the
    decimal is converted back to the nearest float. *)
Definition py_round (x : pyfloat) (ndigits : nat) : pyfloat :=
  nearest (scaled_round x ndigits) (10 ^ Z.of_nat ndigits).

(** The same values as IEEE 754 binary64 data of the Standard Library. *)
Definition to_spec_float (x : pyfloat) : spec_float :=
  match x with
  | Float (Zpos m) e => S754_finite false m e
  | Float (Zneg m) e => S754_finite true m e
  | Float Z0 _ => S754_zero false
  end.

Definition binary64_of_Z (n : Z) : spec_float :=
  binary_normalize 53 1024 n 0 false.

(* ================================================================== *)
(** ** Python values *)

(** The floats that are not finite; [json.loads] reads the literals
    [NaN], [Infinity] and [-Infinity]. *)
Inductive special_float := NotANumber | PlusInfinity | MinusInfinity.

(** A value as [response.json()] returns it: [None], a [bool], an [int],
    a [float], a [str], a [list], or a [dict] with [str] keys (its items
    in order, each key once). *)
#[local] Unset Elimination Schemes.
Inductive pyvalue :=
| PyNone
| PyBool (b : bool)
| PyInt (n : Z)
| PyFloat (x : pyfloat)
| PyNonFinite (x : special_float)
| PyStr (s : string)
| PyList (items : list pyvalue)
| PyDict (items : list (string * pyvalue)).
#[local] Set Elimination Schemes.

(** [bool(v)], the test of [if v:] and of [v and ...]. *)
Definition truthy (v : pyvalue) : bool :=
  match v with
  | PyNone => false
  | PyBool b => b
  | PyInt n => negb (n =? 0)
  | PyFloat (Float m _) => negb (m =? 0)
  | PyNonFinite _ => true
  | PyStr s => negb (String.eqb s "")
  | PyList items => match items with [] => false | _ :: _ => true end
  | PyDict items => match items with [] => false | _ :: _ => true end
  end.

(** [v.get(key, default)]: only a [dict] has the method; a key that is
    present gives its value, also when that value is [None]. *)
Definition py_get (v : pyvalue) (key : string) (default : pyvalue)
  : Res pyvalue :=
  match v with
  | PyDict items => Ok (dict_get key default items)
  | _ => Raise AttributeError
  end.

(** [len(v)] *)
Definition py_len (v : pyvalue) : Res Z :=
  match v with
  | PyStr s => Ok (Z.of_nat (String.length s))
  | PyList items => Ok (Z.of_nat (length items))
  | PyDict items => Ok (Z.of_nat (length items))
  | _ => Raise TypeError
  end.

(** [v[0]]: the first item of a list, the first character of a string;
    a [dict] with [str] keys has no key [0]. *)
Definition py_first (v : pyvalue) : Res pyvalue :=
  match v with
  | PyList (first :: _) => Ok first
  | PyList [] => Raise IndexError
  | PyStr (String c _) => Ok (PyStr (String c ""))
  | PyStr EmptyString => Raise IndexError
  | PyDict _ => Raise (KeyError "0")
  | _ => Raise TypeError
  end.

(** [v.lower()]: a method of [str] only. *)
Definition py_lower_method (v : pyvalue) : Res string :=
  match v with
  | PyStr s => Ok (py_lower s)
  | _ => Raise AttributeError
  end.

(** Sequencing of results that may be exceptions. *)
Definition and_then {A B} (r : Res A) (k : A -> Res B) : Res B :=
  match r with
  | Ok a => k a
  | Raise e => Raise e
  end.

Notation "x <~ c ;; k" := (and_then c (fun x => k))
  (at level 61, c at next level, right associativity).

(* ================================================================== *)
(** ** Effects *)

(** The body of a POST to the chat-completion endpoint. *)
Record Request := {
  req_url : string;
  req_headers : dict string;
  req_model : string;
  req_messages : list (dict string)
}.

(** What [response.json()] does with the body of a response: a body
    that is not JSON makes it raise [JSONDecodeError], which is a
    [RequestException]; any other body is decoded to a value. *)
Inductive JsonBody :=
| BadJson (details : string)
| Json (response_data : pyvalue).

Record HttpResponse := {
  status_code : Z;
  http_error_msg : string;
  json : JsonBody
}.

(** [requests.post] either raises a transport-level [RequestException]
    or returns a response. *)
Inductive PostOutcome :=
| TransportFailure (details : string)
| Responded (r : HttpResponse).

Inductive Event :=
| EvPost (req : Request)
| EvSleep (seconds : Z)
| EvFlash (msg : string).

(** The log of the events so far, oldest first. *)
Definition World := list Event.

Definition M (A : Type) := World -> Res A * World.

Definition ret {A} (a : A) : M A := fun w => (Ok a, w).

Definition bind {A B} (c : M A) (k : A -> M B) : M B :=
  fun w =>
    match c w with
    | (Ok a, w') => k a w'
    | (Raise e, w') => (Raise e, w')
    end.

Definition lift {A} (r : Res A) : M A := fun w => (r, w).

Definition emit (ev : Event) : M unit := fun w => (Ok tt, w ++ [ev]).

Notation "x <- c ;; k" := (bind c (fun x => k))
  (at level 61, c at next level, right associativity).
Notation "c ;;; k" := (bind c (fun _ => k))
  (at level 61, right associativity).

Definition time_sleep (seconds : Z) : M unit := emit (EvSleep seconds).
Definition flash (msg : string) : M unit := emit (EvFlash msg).

(** Unfolds the monad and the three effects down to pairs. *)
Ltac run_monad :=
  unfold time_sleep, flash; unfold bind, ret, lift, emit.

(** Case analysis on the dynamic checks of a body. *)
Ltac body_cases :=
  repeat match goal with
         | |- context [match ?x with _ => _ end] =>
             match type of x with
             | pyvalue => destruct x eqn:?
             | list _ => destruct x eqn:?
             | option _ => destruct x eqn:?
             | string => destruct x eqn:?
             | bool => destruct x eqn:?
             | pyfloat => destruct x eqn:?
             end; cbn [and_then py_get py_len py_first truthy negb] in *
         | |- context [if ?c then _ else _] => destruct c eqn:?
         end.

Definition posts (w : World) : list Request :=
  flat_map (fun ev => match ev with EvPost r => [r] | _ => [] end) w.

Definition sleeps (w : World) : list Z :=
  flat_map (fun ev => match ev with EvSleep s => [s] | _ => [] end) w.

Definition flashes (w : World) : list string :=
  flat_map (fun ev => match ev with EvFlash s => [s] | _ => [] end) w.

(* ================================================================== *)
(** ** The application *)

(** A [pandas.DataFrame]: its columns by name, each a list of cells in row
    order; a missing cell (NaN) is [None]. *)
Definition DataFrame := list (string * list (option string)).

(** A werkzeug [FileStorage]: the client's file name and the bytes sent. *)
Record FileStorage := {
  filename : string;
  stream : string
}.

(** What the program does not define itself: the two pandas readers, the
    answer of the network to a POST given the events so far, the process
    environment, and how the interpreter prints a value that is not a
    string. *)
Record Env := {
  read_csv : FileStorage -> Res DataFrame;
  read_excel : FileStorage -> Res DataFrame;
  network : World -> Request -> PostOutcome;
  environ : dict string;
  repr : pyvalue -> string
}.

(** [f"{v}"]: a [str] is printed as it is. *)
Definition py_str (E : Env) (v : pyvalue) : string :=
  match v with
  | PyStr s => s
  | _ => repr E v
  end.

(** [API_KEY = os.environ.get("GROQ_API_KEY")] *)
Definition API_KEY (E : Env) : option string :=
  dict_lookup "GROQ_API_KEY" (environ E).

Definition GROQ_API_URL : string :=
  "https://api.groq.com/openai/v1/chat/completions".
Definition MODEL_ID : string := "llama3-8b-8192".

Definition ALLOWED_EXTENSIONS : list string := ["csv"; "xlsx"].

(** [allowed_file(filename)]; indexing [rsplit('.', 1)] at 1 raises
    [IndexError] on a one-element list. *)
Definition allowed_file (filename : string) : Res bool :=
  if py_contains "." filename then
    match nth_error (py_rsplit1 "." filename) 1 with
    | Some ext => Ok (str_in (py_lower ext) ALLOWED_EXTENSIONS)
    | None => Raise IndexError
    end
  else Ok false.

(** The reader [process_file] hands the file to. *)
Inductive Reader := ReadCsv | ReadExcel.

Definition reader_for (name : string) : Reader :=
  if py_endswith name ".csv" then ReadCsv else ReadExcel.

Definition run_reader (E : Env) (r : Reader) (file : FileStorage)
  : Res DataFrame :=
  match r with
  | ReadCsv => read_csv E file
  | ReadExcel => read_excel E file
  end.

(** [df[name].dropna().tolist()] *)
Definition dropna_tolist (col : list (option string)) : list string :=
  flat_map (fun c => match c with Some v => [v] | None => [] end) col.

(** [process_file(file)]: the pair [(reviews, error)]. *)
Definition process_file (E : Env) (file : FileStorage)
  : Res (option (list string) * option string) :=
  match run_reader E (reader_for (filename file)) file with
  | Raise e => Raise e
  | Ok df =>
      match dict_lookup "Review" df with
      | None => Ok (None, Some "Missing 'Review' column in file.")
      | Some col => Ok (Some (dropna_tolist col), None)
      end
  end.

(** Lines 42-47: the keyword tests on the lowered text. *)
Definition keyword_of (sentiment_content_lower : string) : string :=
  if py_contains "positive" sentiment_content_lower then "positive"
  else if py_contains "negative" sentiment_content_lower then "negative"
  else "neutral".

(** [classify_sentiment(sentiment_content)]; line 40 calls [.lower()] on
    whatever it is given. *)
Definition classify_sentiment (sentiment_content : pyvalue) : Res string :=
  sentiment_content_lower <~ py_lower_method sentiment_content ;;
  Ok (keyword_of sentiment_content_lower).

(** [f"{x}"] for an optional string: [None] prints as [None]. *)
Definition format_opt (x : option string) : string :=
  match x with Some s => s | None => "None" end.

Definition build_request (E : Env) (review : string) : Request :=
  {| req_url := GROQ_API_URL;
     req_headers := [("Authorization", ("Bearer " ++ format_opt (API_KEY E))%string);
                     ("Content-Type", "application/json")];
     req_model := MODEL_ID;
     req_messages :=
       [[("role", "user");
         ("content",
          ("Analyze the sentiment of this review: '" ++ review ++ "'")%string)]]
  |}.

Definition requests_post (E : Env) (req : Request) : M PostOutcome :=
  fun w => (Ok (network E w req), w ++ [EvPost req]).

(** [response.raise_for_status()] raises for the statuses 400..599. *)
Definition raises_for_status (r : HttpResponse) : bool :=
  (400 <=? status_code r) && (status_code r <? 600).

(** Lines 71-85: what the [try] body does with a response that passed
    [raise_for_status].  The [AttributeError], [TypeError], [KeyError] and
    [IndexError] of the dynamic checks are caught by neither [except]
    clause. *)
Definition read_choices (r : HttpResponse) : Res (dict pyvalue) :=
  match json r with
  | BadJson details =>
      Ok [("error", PyStr ("Request failed: " ++ details))]
  | Json response_data =>
      choices <~ py_get response_data "choices" PyNone ;;
      if truthy choices then
        n <~ py_len choices ;;
        if 0 <? n then
          first <~ py_first choices ;;
          msg <~ py_get first "message" (PyDict []) ;;
          sentiment_content <~ py_get msg "content" PyNone ;;
          if truthy sentiment_content
          then Ok [("sentiment", sentiment_content)]
          else Ok [("error",
                    PyStr "Sentiment content not found in the response.")]
        else Ok [("error", PyStr "No choices found in the API response.")]
      else Ok [("error", PyStr "No choices found in the API response.")]
  end.

(** The [for attempt in range(retry_attempts)] loop of
    [analyze_sentiment], over the attempts still to make. *)
Fixpoint attempt_loop (E : Env) (req : Request) (attempts : list nat)
  : M (dict pyvalue) :=
  match attempts with
  | [] =>
      ret [("error",
            PyStr "Failed after multiple retries due to rate limiting.")]
  | attempt :: rest =>
      outcome <- requests_post E req ;;
      match outcome with
      | TransportFailure details =>
          ret [("error", PyStr ("Request failed: " ++ details))]
      | Responded response =>
          if raises_for_status response then
            if status_code response =? 429 then
              time_sleep (2 ^ Z.of_nat attempt) ;;;
              attempt_loop E req rest
            else ret [("error",
                       PyStr ("HTTP error: " ++ http_error_msg response))]
          else lift (read_choices response)
      end
  end.

Definition retry_attempts : nat := 3.

(** [analyze_sentiment(review)] *)
Definition analyze_sentiment (E : Env) (review : string)
  : M (dict pyvalue) :=
  attempt_loop E (build_request E review) (seq 0 retry_attempts).

(** The Flask request, as far as [upload_file] reads it. *)
Record FlaskRequest := {
  method : string;
  files : dict FileStorage;
  url : string
}.

Inductive Response :=
| Redirect (location : string)
| RenderIndex
| RenderResults (results : list (dict string)) (summary : dict pyfloat).

(** The local variables the review loop of [upload_file] updates. *)
Record Tally := {
  positive_count : Z;
  negative_count : Z;
  neutral_count : Z;
  results : list (dict string)
}.

Definition empty_tally : Tally :=
  {| positive_count := 0; negative_count := 0; neutral_count := 0;
     results := [] |}.

(** Lines 131-135: the label of one review from the client's answer. *)
Definition label_of (E : Env) (sentiment_result : dict pyvalue) : M string :=
  if dict_has "sentiment" sentiment_result then
    match dict_lookup "sentiment" sentiment_result with
    | Some sentiment_content => lift (classify_sentiment sentiment_content)
    | None => lift (Raise (KeyError "sentiment"))
    end
  else
    flash ("Error analyzing sentiment for review: "
           ++ py_str E (dict_get "error" (PyStr "Unknown error")
                                 sentiment_result))%string ;;;
    ret "unknown".

(** Lines 138-148: one more label counted, one more entry appended. *)
Definition count_label (t : Tally) (review sentiment : string) : Tally :=
  let entry := [("review", review); ("sentiment", sentiment)] in
  if String.eqb sentiment "positive" then
    {| positive_count := positive_count t + 1;
       negative_count := negative_count t;
       neutral_count := neutral_count t;
       results := results t ++ [entry] |}
  else if String.eqb sentiment "negative" then
    {| positive_count := positive_count t;
       negative_count := negative_count t + 1;
       neutral_count := neutral_count t;
       results := results t ++ [entry] |}
  else
    {| positive_count := positive_count t;
       negative_count := negative_count t;
       neutral_count := neutral_count t + 1;
       results := results t ++ [entry] |}.

(** The [for review in reviews] loop. *)
Fixpoint review_loop (E : Env) (reviews : list string) (t : Tally)
  : M Tally :=
  match reviews with
  | [] => ret t
  | review :: rest =>
      sentiment_result <- analyze_sentiment E review ;;
      sentiment <- label_of E sentiment_result ;;
      review_loop E rest (count_label t review sentiment)
  end.

(** Lines 150-159: the three rounded proportions. *)
Definition sentiment_summary (t : Tally) (reviews : list string)
  : M (dict pyfloat) :=
  let total_reviews := Z.of_nat (length reviews) in
  p <- lift (int_truediv (positive_count t) total_reviews) ;;
  let positive_score := py_round p 2 in
  n <- lift (int_truediv (negative_count t) total_reviews) ;;
  let negative_score := py_round n 2 in
  u <- lift (int_truediv (neutral_count t) total_reviews) ;;
  let neutral_score := py_round u 2 in
  ret [("positive", positive_score);
       ("negative", negative_score);
       ("neutral", neutral_score)].

(** Lines 122-161: what [upload_file] does with the ingested reviews. *)
Definition analyse_reviews (E : Env) (reviews : list string)
  : M Response :=
  t <- review_loop E reviews empty_tally ;;
  sentiment_summary <- sentiment_summary t reviews ;;
  ret (RenderResults (results t) sentiment_summary).

(** [upload_file()], the handler of GET and POST on [/]. *)
Definition upload_file (E : Env) (request : FlaskRequest) : M Response :=
  if String.eqb (method request) "POST" then
    match dict_lookup "file" (files request) with
    | None => flash "No file part" ;;; ret (Redirect (url request))
    | Some file =>
        if String.eqb (filename file) "" then
          flash "No selected file" ;;; ret (Redirect (url request))
        else
          (* [file and allowed_file(file.filename)]: a FileStorage is
             true when its filename is not empty. *)
          allowed <- (if String.eqb (filename file) "" then ret false
                      else lift (allowed_file (filename file))) ;;
          if allowed : bool then
            ingested <- lift (process_file E file) ;;
            match ingested with
            | (_, Some (String c msg)) =>
                flash (String c msg) ;;; ret (Redirect (url request))
            | (Some reviews, _) => analyse_reviews E reviews
            | (None, _) => lift (Raise TypeError)
            end
          else
            flash "Allowed file types are CSV, XLSX" ;;;
            ret (Redirect (url request))
    end
  else ret RenderIndex.

(* ================================================================== *)
(** ** Sample inputs *)

(** A 200 response with the body [b]. *)
Definition json_response (b : pyvalue) : PostOutcome :=
  Responded {| status_code := 200; http_error_msg := ""; json := Json b |}.

(** [{"choices": [{"message": {"role": "assistant", "content": text}}]}] *)
Definition ok_response (text : string) : PostOutcome :=
  json_response
    (PyDict [("choices",
              PyList [PyDict [("message",
                               PyDict [("role", PyStr "assistant");
                                       ("content", PyStr text)])]])]).

Definition error_response (code : Z) (msg : string) : PostOutcome :=
  Responded {| status_code := code; http_error_msg := msg;
               json := BadJson "" |}.

Definition prompt_of (req : Request) : string :=
  match req_messages req with
  | m :: _ => dict_get "content" "" m
  | [] => ""
  end.

(** A network whose model answers by the wording of the review. *)
Definition keyword_network (w : World) (req : Request) : PostOutcome :=
  if py_contains "Great" (prompt_of req) then
    ok_response "The sentiment of this review is Positive."
  else if py_contains "Terrible" (prompt_of req) then
    ok_response "Overall the tone is NEGATIVE."
  else ok_response "The review reads as neutral.".

(** A network that is always rate limited. *)
Definition busy_network (w : World) (req : Request) : PostOutcome :=
  error_response 429 "429 Client Error: Too Many Requests".

(** A network that answers [{"choices": [{"message": null}]}]. *)
Definition null_message_network (w : World) (req : Request) : PostOutcome :=
  json_response (PyDict [("choices", PyList [PyDict [("message", PyNone)]])]).

(** A network that is rate limited twice and then fails with a 500. *)
Definition flaky_network (w : World) (req : Request) : PostOutcome :=
  if (length (posts w) <? 2)%nat
  then error_response 429 "429 Client Error: Too Many Requests"
  else error_response 500 "500 Server Error: Internal Server Error".

Definition three_reviews : DataFrame :=
  [("Id", [Some "1"; Some "2"; Some "3"; Some "4"]);
   ("Review", [Some "Great product!"; None; Some "Terrible experience";
               Some "It was okay"])].

Definition no_review_column : DataFrame :=
  [("Id", [Some "1"; Some "2"]); ("Comment", [Some "fine"; Some "bad"])].

Definition blank_reviews : DataFrame :=
  [("Id", [Some "1"; Some "2"]); ("Review", [None; None])].

Definition sample_repr (v : pyvalue) : string :=
  match v with
  | PyNone => "None"
  | PyBool true => "True"
  | PyBool false => "False"
  | PyStr s => s
  | _ => "<object>"
  end.

Definition sample_env (df : DataFrame)
    (net : World -> Request -> PostOutcome) (vars : dict string) : Env :=
  {| read_csv := fun _ => Ok df;
     read_excel := fun _ => Ok df;
     network := net;
     environ := vars;
     repr := sample_repr |}.

Definition upload_of (name : string) : FlaskRequest :=
  {| method := "POST";
     files := [("file", {| filename := name; stream := "" |})];
     url := "http://localhost:5000/" |}.

(** An environment whose Excel reader rejects every file. *)
Definition unreadable_env : Env :=
  {| read_csv := fun _ => Ok three_reviews;
     read_excel := fun _ => Raise (ParserError "File is not a zip file");
     network := keyword_network;
     environ := [];
     repr := sample_repr |}.

(** The four messages [upload_file] flashes before a redirect. *)
Definition redirect_messages : list string :=
  ["No file part"; "No selected file"; "Allowed file types are CSV, XLSX";
   "Missing 'Review' column in file."].

(* ================================================================== *)
(** ** pandas on plain CSV text *)



















(* ================================================================== *)
(** ** Vocabulary of the specification *)

(** Two characters that are the same letter up to case. *)
Definition same_letter (a b : ascii) : Prop :=
  let x := nat_of_ascii a in
  let y := nat_of_ascii b in
  x = y \/
  ((65 <= x <= 90)%nat /\ y = (x + 32)%nat) \/
  ((65 <= y <= 90)%nat /\ x = (y + 32)%nat).

Inductive ci_equal : string -> string -> Prop :=
| ci_equal_nil : ci_equal "" ""
| ci_equal_cons a b s t :
    same_letter a b -> ci_equal s t -> ci_equal (String a s) (String b t).

(** [p] is a case-insensitive substring of [s]. *)
Definition ci_substring (p s : string) : Prop :=
  exists pre mid post, s = (pre ++ mid ++ post)%string /\ ci_equal mid p.

(** No capital letter occurs in [s]. *)
Fixpoint no_upper (s : string) : bool :=
  match s with
  | EmptyString => true
  | String c s' => negb (is_upper c) && no_upper s'
  end.

(** The extension of a file name: what follows its last dot. *)
Definition has_extension (name ext : string) : Prop :=
  exists stem, name = (stem ++ "." ++ ext)%string /\ py_contains "." ext = false.

(** The answers of [analyze_sentiment], in the words of the
    specification. *)
Definition Success (text : string) : dict pyvalue :=
  [("sentiment", PyStr text)].
Definition Failure (reason : string) : dict pyvalue :=
  [("error", PyStr reason)].

(** A response with status 429. *)
Definition rate_limited (o : PostOutcome) : bool :=
  match o with
  | Responded r => status_code r =? 429
  | TransportFailure _ => false
  end.

(** The events of [k] rate-limited attempts numbered from [a]: a POST and
    the sleep that follows it, each time. *)
Definition retry_events (req : Request) (a k : nat) : list Event :=
  flat_map (fun i => [EvPost req; EvSleep (2 ^ Z.of_nat i)]) (seq a k).

(** The answer after an attempt that is not rate limited. *)
Definition settle (o : PostOutcome) : Res (dict pyvalue) :=
  match o with
  | TransportFailure details => Ok (Failure ("Request failed: " ++ details))
  | Responded r =>
      if raises_for_status r
      then Ok (Failure ("HTTP error: " ++ http_error_msg r))
      else read_choices r
  end.

(** A decoded body of the shape the endpoint documents,
    [{choices: [{message: {content: string}}]}], where [choices] may be
    missing, null or empty, [message] may be missing and [content] may be
    missing or null. *)
Definition conforms (response_data : pyvalue) : bool :=
  match response_data with
  | PyDict body =>
      match dict_lookup "choices" body with
      | None | Some PyNone | Some (PyList []) => true
      | Some (PyList (PyDict choice :: _)) =>
          match dict_lookup "message" choice with
          | None => true
          | Some (PyDict msg) =>
              match dict_lookup "content" msg with
              | None | Some PyNone | Some (PyStr _) => true
              | Some _ => false
              end
          | Some _ => false
          end
      | Some _ => false
      end
  | _ => false
  end.

(** An answer of the network that keeps to the documented interface: a
    transport failure, an HTTP error status, a body that is not JSON, or
    a body of the documented shape. *)
Definition schema_answer (o : PostOutcome) : bool :=
  match o with
  | TransportFailure _ => true
  | Responded r =>
      raises_for_status r ||
      match json r with
      | BadJson _ => true
      | Json response_data => conforms response_data
      end
  end.

Definition well_behaved (E : Env) : Prop :=
  forall w req, schema_answer (network E w req) = true.

(** The exceptions the reading of a body can end in. *)
Definition body_error (e : exn) : Prop :=
  e = AttributeError \/ e = TypeError \/ e = KeyError "0".

(** The course of the review loop, review by review: from the log [w],
    over the reviews, to the entries of the results and the log [w'].
    Each review is answered by the client in the log reached so far; a
    [Success] is labelled by its text and logs nothing more, a [Failure]
    is labelled [unknown] and its reason is flashed at once. *)
Inductive reviewed (E : Env)
  : World -> list string -> list (dict string) -> World -> Prop :=
| reviewed_nil w : reviewed E w [] [] w
| reviewed_success w review text w1 label rest entries w' :
    analyze_sentiment E review w = (Ok (Success text), w1) ->
    classify_sentiment (PyStr text) = Ok label ->
    reviewed E w1 rest entries w' ->
    reviewed E w (review :: rest)
             ([("review", review); ("sentiment", label)] :: entries) w'
| reviewed_failure w review reason w1 rest entries w' :
    analyze_sentiment E review w = (Ok (Failure reason), w1) ->
    reviewed E
             (w1 ++ [EvFlash ("Error analyzing sentiment for review: "
                              ++ reason)])
             rest entries w' ->
    reviewed E w (review :: rest)
             ([("review", review); ("sentiment", "unknown")] :: entries) w'.

(** The labels of a list of result entries, and how many of them are a
    given label. *)
Definition labels_of (entries : list (dict string)) : list string :=
  map (dict_get "sentiment" "") entries.

Definition reviews_of (entries : list (dict string)) : list string :=
  map (dict_get "review" "") entries.

Definition occurrences (label : string) (labels : list string) : Z :=
  Z.of_nat (count_occ string_dec labels label).

Definition is_some {A} (x : option A) : bool :=
  match x with Some _ => true | None => false end.

(** The four sentiment labels. *)
Definition valid_label (l : string) : Prop :=
  l = "positive" \/ l = "negative" \/ l = "neutral" \/ l = "unknown".

(** The counters agree with the entries appended so far: [unknown] has no
    counter of its own and is counted with [neutral]. *)
Definition tallied (t : Tally) : Prop :=
  let labels := labels_of (results t) in
  positive_count t = occurrences "positive" labels /\
  negative_count t = occurrences "negative" labels /\
  neutral_count t =
    occurrences "neutral" labels + occurrences "unknown" labels /\
  Forall valid_label labels /\
  Forall (fun entry => dict_keys entry = ["review"; "sentiment"]) (results t).

(** [v] is [count / total] rounded to two decimals: the float nearest
    to [k / 100], for the whole number [k] of hundredths that the code
    rounds [100 * count / total] to.  That is a whole number within a half
    of it, up to the rounding error of the division, and for a total below
    [2^45] exactly a nearest whole number (either one at a tie). *)
Definition rounded_share (count total : Z) (v : pyfloat) : Prop :=
  exists k : Z,
    0 <= k <= 100 /\
    v = nearest k 100 /\
    (- (1 # 2) - (100 # 2 ^ 53)
       <= inject_Z k - 100 * (inject_Z count / inject_Z total))%Q /\
    (inject_Z k - 100 * (inject_Z count / inject_Z total)
       <= (1 # 2) + (100 # 2 ^ 53))%Q /\
    (total < 2 ^ 45 -> 2 * Z.abs (k * total - 100 * count) <= total).

(** The summary reports the rounded shares of the three buckets, the
    labels [neutral] and [unknown] sharing one. *)
Definition reports (labels : list string) (total : Z)
    (summary : dict pyfloat) : Prop :=
  exists p n u,
    summary = [("positive", p); ("negative", n); ("neutral", u)] /\
    rounded_share (occurrences "positive" labels) total p /\
    rounded_share (occurrences "negative" labels) total n /\
    rounded_share (occurrences "neutral" labels
                   + occurrences "unknown" labels) total u.

(** The summary of a tally: the three rounded quotients. *)
Definition summary_of (t : Tally) (total : Z) : dict pyfloat :=
  [("positive", py_round (nearest (positive_count t) total) 2);
   ("negative", py_round (nearest (negative_count t) total) 2);
   ("neutral", py_round (nearest (neutral_count t) total) 2)].

(* ================================================================== *)
(** ** Strings *)

Lemma startswith_iff (p s : string) :
  py_startswith s p = true <-> exists t, s = (p ++ t)%string.
Proof.
  revert s; induction p as [|a p IH]; intros s; simpl.
  - split; [intros _; now exists s | intros _; now destruct s].
  - destruct s as [|b s]; simpl.
    + split; [discriminate | intros [t H]; discriminate].
    + rewrite andb_true_iff, Ascii.eqb_eq, IH. split.
      * intros [-> [t ->]]. now exists t.
      * intros [t H]. injection H as -> ->. split; [reflexivity | now exists t].
Qed.

Lemma contains_iff (p s : string) :
  py_contains p s = true <-> exists pre post, s = (pre ++ p ++ post)%string.
Proof.
  induction s as [|c s IH].
  - cbn [py_contains]. rewrite orb_false_r, startswith_iff. split.
    + intros [t H]. now exists ""%string, t.
    + intros [pre [post H]]. destruct pre; simpl in H; [now exists post | discriminate].
  - cbn [py_contains]. rewrite orb_true_iff, startswith_iff, IH. split.
    + intros [[t H] | [pre [post H]]].
      * now exists ""%string, t.
      * exists (String c pre), post. simpl. now rewrite H.
    + intros [pre [post H]]. destruct pre as [|c' pre]; simpl in H.
      * left. now exists post.
      * right. injection H as _ H. now exists pre, post.
Qed.

Lemma lower_app (a b : string) :
  py_lower (a ++ b) = (py_lower a ++ py_lower b)%string.
Proof. induction a as [|c a IH]; simpl; [reflexivity | now rewrite IH]. Qed.

Lemma lower_app_inv (s x y : string) :
  py_lower s = (x ++ y)%string ->
  exists a b, s = (a ++ b)%string /\ py_lower a = x /\ py_lower b = y.
Proof.
  revert s; induction x as [|c x IH]; intros s H; simpl in H.
  - now exists ""%string, s.
  - destruct s as [|d s]; simpl in H; [discriminate |].
    injection H as Hc H. destruct (IH s H) as (a & b & -> & Ha & Hb).
    exists (String d a), b. simpl. now rewrite Hc, Ha.
Qed.

Lemma nat_of_ascii_inj (a b : ascii) :
  nat_of_ascii a = nat_of_ascii b -> a = b.
Proof.
  intros H. rewrite <- (ascii_nat_embedding a), <- (ascii_nat_embedding b).
  now rewrite H.
Qed.

Lemma is_upper_iff (c : ascii) :
  is_upper c = true <-> (65 <= nat_of_ascii c <= 90)%nat.
Proof.
  unfold is_upper. cbv zeta.
  rewrite andb_true_iff, !Nat.leb_le. reflexivity.
Qed.

Lemma lower_char_same_letter (a b : ascii) :
  is_upper b = false -> (lower_char a = b <-> same_letter a b).
Proof.
  intros Hb. unfold lower_char, same_letter. cbv zeta.
  destruct (is_upper a) eqn:Ha.
  - apply is_upper_iff in Ha. split.
    + intros <-. right; left. split; [exact Ha |].
      apply nat_ascii_embedding. lia.
    + intros [H | [[_ H] | [H _]]].
      * apply nat_of_ascii_inj in H. subst b.
        apply is_upper_iff in Ha. congruence.
      * rewrite <- H. apply ascii_nat_embedding.
      * apply is_upper_iff in H. congruence.
  - split.
    + intros ->. now left.
    + intros [H | [[H _] | [H _]]].
      * now apply nat_of_ascii_inj.
      * apply is_upper_iff in H. congruence.
      * apply is_upper_iff in H. congruence.
Qed.

Lemma lower_eq_ci_equal (p s : string) :
  no_upper p = true -> (py_lower s = p <-> ci_equal s p).
Proof.
  revert s; induction p as [|b p IH]; intros s Hp.
  - destruct s; simpl; split; intros H;
      first [constructor | discriminate | inversion H | reflexivity].
  - simpl in Hp. apply andb_true_iff in Hp as [Hb Hp].
    apply negb_true_iff in Hb.
    destruct s as [|a s]; simpl.
    + split; intros H; [discriminate | inversion H].
    + split.
      * intros H. injection H as Hc Hs. constructor.
        -- now apply lower_char_same_letter.
        -- now apply IH.
      * intros H. inversion H; subst. f_equal.
        -- now apply lower_char_same_letter.
        -- now apply IH.
Qed.

(** Lowering the text and searching for a lower-case pattern is the
    case-insensitive search for it. *)
Lemma contains_lower_iff (p s : string) :
  no_upper p = true ->
  (py_contains p (py_lower s) = true <-> ci_substring p s).
Proof.
  intros Hp. rewrite contains_iff. unfold ci_substring. split.
  - intros (x & y & H).
    apply lower_app_inv in H as (pre & r & -> & Hpre & H).
    apply lower_app_inv in H as (mid & post & -> & Hmid & Hpost).
    exists pre, mid, post. split; [reflexivity |].
    now apply lower_eq_ci_equal.
  - intros (pre & mid & post & -> & H).
    apply lower_eq_ci_equal in H; [| exact Hp].
    exists (py_lower pre), (py_lower post).
    now rewrite !lower_app, H.
Qed.

Lemma contains_char_cons (sep c : ascii) (s : string) :
  py_contains (String sep "") (String c s) =
  Ascii.eqb sep c || py_contains (String sep "") s.
Proof.
  cbn [py_contains py_startswith]. destruct s; now rewrite andb_true_r.
Qed.

Lemma split_last_none (sep : ascii) (s : string) :
  split_last sep s = None <-> py_contains (String sep "") s = false.
Proof.
  induction s as [|c s IH].
  - simpl. tauto.
  - rewrite contains_char_cons, orb_false_iff. cbn [split_last].
    destruct (split_last sep s) as [[a b]|].
    + split; [discriminate | intros [_ H]; apply IH in H; discriminate].
    + rewrite (Ascii.eqb_sym sep c).
      destruct (Ascii.eqb c sep).
      * split; [discriminate | intros [H _]; discriminate].
      * split; [intros _; split; [reflexivity | now apply IH] | reflexivity].
Qed.

Lemma split_last_some (sep : ascii) (s a b : string) :
  split_last sep s = Some (a, b) <->
  s = (a ++ String sep b)%string /\ py_contains (String sep "") b = false.
Proof.
  revert a; induction s as [|c s IH]; intros a.
  - simpl. split; [discriminate | intros [H _]; destruct a; discriminate].
  - cbn [split_last]. destruct (split_last sep s) as [[a' b']|] eqn:Hs.
    + split.
      * intros H. injection H as <- <-.
        destruct (proj1 (IH a') eq_refl) as [-> Hb]. now split.
      * intros [H Hb]. destruct a as [|c' a]; simpl in H.
        -- injection H as -> ->.
           assert (Hn : split_last sep b = None) by now apply split_last_none.
           congruence.
        -- injection H as <- H.
           assert (Ha : Some (a', b') = Some (a, b)) by (apply IH; now split).
           now injection Ha as -> ->.
    + destruct (Ascii.eqb c sep) eqn:Hc.
      * apply Ascii.eqb_eq in Hc. subst c. split.
        -- intros H. injection H as <- <-. split; [reflexivity |].
           now apply split_last_none.
        -- intros [H Hb]. destruct a as [|c' a]; simpl in H.
           ++ now injection H as ->.
           ++ injection H as _ H.
              assert (Ha : None = Some (a, b)) by (apply IH; now split).
              discriminate.
      * split; [discriminate |]. intros [H Hb].
        destruct a as [|c' a]; simpl in H.
        -- injection H as -> _. rewrite Ascii.eqb_refl in Hc. discriminate.
        -- injection H as _ H.
           assert (Ha : None = Some (a, b)) by (apply IH; now split).
           discriminate.
Qed.

(** [allowed_file] never raises: the index 1 is read only when the name
    has a dot. *)
Lemma allowed_file_total (name : string) :
  exists b, allowed_file name = Ok b.
Proof.
  unfold allowed_file, py_rsplit1.
  destruct (py_contains "." name) eqn:Hdot; [| now exists false].
  destruct (split_last "." name) as [[a b]|] eqn:Hs.
  - simpl. eauto.
  - apply split_last_none in Hs. congruence.
Qed.

(** A name is accepted exactly when what follows its last dot is [csv] or
    [xlsx] in any mix of cases. *)
Lemma allowed_file_iff (name : string) :
  allowed_file name = Ok true <->
  exists ext, has_extension name ext /\
              (ci_equal ext "csv" \/ ci_equal ext "xlsx").
Proof.
  unfold allowed_file, py_rsplit1, has_extension.
  destruct (split_last "." name) as [[a b]|] eqn:Hs.
  - pose proof (proj1 (split_last_some _ _ _ _) Hs) as [-> Hb].
    assert (Hdot : py_contains "." (a ++ String "." b) = true).
    { apply contains_iff. now exists a, b. }
    rewrite Hdot. cbn [nth_error].
    unfold str_in, ALLOWED_EXTENSIONS. cbn [existsb].
    rewrite orb_false_r. split.
    + intros H. injection H as H. exists b. split; [now exists a |].
      apply orb_true_iff in H as [H | H]; apply String.eqb_eq in H;
        [left | right]; now apply lower_eq_ci_equal.
    + intros (ext & (stem & Hn & Hext) & Hci).
      assert (He : Some (a, b) = Some (stem, ext)).
      { rewrite <- Hs. apply split_last_some. now split. }
      injection He as -> ->. f_equal. apply orb_true_iff.
      destruct Hci as [H | H]; apply lower_eq_ci_equal in H;
        try reflexivity; rewrite H; [left | right]; reflexivity.
  - pose proof (proj1 (split_last_none _ _) Hs) as Hdot. rewrite Hdot.
    split; [discriminate |].
    intros (ext & (stem & -> & _) & _).
    assert (H : py_contains "." (stem ++ "." ++ ext) = true).
    { apply contains_iff. now exists stem, ext. }
    congruence.
Qed.

(** The reader is chosen by a case-sensitive test of the suffix. *)
Lemma endswith_iff (s p : string) :
  py_endswith s p = true <-> exists pre, s = (pre ++ p)%string.
Proof.
  induction s as [|c s IH]; cbn [py_endswith].
  - rewrite orb_false_r, String.eqb_eq. split.
    + intros <-. now exists ""%string.
    + intros [pre H]. destruct pre; simpl in H; [exact H | discriminate].
  - rewrite orb_true_iff, String.eqb_eq, IH. split.
    + intros [<- | [pre ->]]; [now exists ""%string | now exists (String c pre)].
    + intros [pre H]. destruct pre as [|c' pre]; simpl in H.
      * now left.
      * right. injection H as _ H. now exists pre.
Qed.

(** Names written [*.csv] in lower case go to the CSV reader, and names
    with the extension [xlsx] in any mix of cases to the Excel reader. *)
Lemma lowercase_csv_reader (name : string) :
  has_extension name "csv" -> reader_for name = ReadCsv.
Proof.
  intros (stem & -> & _). unfold reader_for.
  assert (H : py_endswith (stem ++ "." ++ "csv") ".csv" = true)
    by (apply endswith_iff; now exists stem).
  now rewrite H.
Qed.

Lemma xlsx_reader (name ext : string) :
  has_extension name ext -> ci_equal ext "xlsx" ->
  reader_for name = ReadExcel.
Proof.
  intros (stem & -> & Hext) Hci. unfold reader_for.
  destruct (py_endswith (stem ++ "." ++ ext) ".csv") eqn:Hend; [| reflexivity].
  apply endswith_iff in Hend as [pre Hpre].
  assert (H1 : split_last "." (stem ++ "." ++ ext) = Some (stem, ext))
    by (apply split_last_some; now split).
  assert (H2 : split_last "." (stem ++ "." ++ ext) = Some (pre, "csv")).
  { rewrite Hpre. apply split_last_some. now split. }
  rewrite H1 in H2. injection H2 as _ ->.
  repeat match goal with
         | H : ci_equal _ _ |- _ => inversion H; clear H; subst
         end.
Qed.

(** C4, at the failing input: a name whose extension is written in
    capitals passes [allowed_file], and [process_file] hands it to the
    Excel reader although it is declared as CSV. *)
Theorem capital_csv_goes_to_excel_reader :
  allowed_file "REVIEWS.CSV" = Ok true /\
  has_extension "REVIEWS.CSV" "CSV" /\ ci_equal "CSV" "csv" /\
  reader_for "REVIEWS.CSV" = ReadExcel /\
  (forall E str,
      process_file E {| filename := "REVIEWS.CSV"; stream := str |} =
      match read_excel E {| filename := "REVIEWS.CSV"; stream := str |} with
      | Raise e => Raise e
      | Ok df =>
          match dict_lookup "Review" df with
          | None => Ok (None, Some "Missing 'Review' column in file.")
          | Some col => Ok (Some (dropna_tolist col), None)
          end
      end).
Proof.
  split; [reflexivity |]. split; [now exists "REVIEWS"%string |].
  split.
  - apply lower_eq_ci_equal; reflexivity.
  - split; [reflexivity |]. intros E str. reflexivity.
Qed.

(* ================================================================== *)
(** ** Label normalisation *)

Lemma classify_sentiment_str (text : string) :
  classify_sentiment (PyStr text) = Ok (keyword_of (py_lower text)).
Proof. reflexivity. Qed.

Lemma keyword_of_cases (text : string) :
  (keyword_of (py_lower text) = "positive"
   <-> ci_substring "positive" text) /\
  (keyword_of (py_lower text) = "negative" <->
     ~ ci_substring "positive" text /\ ci_substring "negative" text) /\
  (keyword_of (py_lower text) = "neutral" <->
     ~ ci_substring "positive" text /\ ~ ci_substring "negative" text).
Proof.
  unfold keyword_of.
  rewrite <- !(contains_lower_iff _ text) by reflexivity.
  destruct (py_contains "positive" (py_lower text));
    destruct (py_contains "negative" (py_lower text));
    repeat split; intros; try discriminate; try tauto;
    repeat match goal with H : _ /\ _ |- _ => destruct H end;
    try congruence.
Qed.

Lemma Ok_inj {A} (x y : A) : Ok x = Ok y <-> x = y.
Proof. split; [intros H; now injection H | now intros ->]. Qed.

Lemma classify_sentiment_cases (text : string) :
  (classify_sentiment (PyStr text) = Ok "positive"
   <-> ci_substring "positive" text) /\
  (classify_sentiment (PyStr text) = Ok "negative" <->
     ~ ci_substring "positive" text /\ ci_substring "negative" text) /\
  (classify_sentiment (PyStr text) = Ok "neutral" <->
     ~ ci_substring "positive" text /\ ~ ci_substring "negative" text).
Proof.
  rewrite classify_sentiment_str, !Ok_inj. apply keyword_of_cases.
Qed.

(** C3: a [Failure] is labelled [unknown]; a [Success] is labelled
    [positive] exactly when its text holds "positive" in any mix of cases,
    else [negative] exactly when it holds "negative", else [neutral]. *)
Theorem label_of_outcome (E : Env) (w : World) :
  (forall reason, fst (label_of E (Failure reason) w) = Ok "unknown") /\
  (forall text, exists label,
      label_of E (Success text) w = (Ok label, w) /\
      (label = "positive" <-> ci_substring "positive" text) /\
      (label = "negative" <->
         ~ ci_substring "positive" text /\ ci_substring "negative" text) /\
      (label = "neutral" <->
         ~ ci_substring "positive" text /\ ~ ci_substring "negative" text)).
Proof.
  split.
  - intros reason. reflexivity.
  - intros text. exists (keyword_of (py_lower text)).
    split; [reflexivity | apply keyword_of_cases].
Qed.

(** A text with both words is labelled [positive]. *)
Lemma both_words_positive (text : string) :
  ci_substring "positive" text -> ci_substring "negative" text ->
  classify_sentiment (PyStr text) = Ok "positive".
Proof. intros H _. now apply classify_sentiment_cases. Qed.

(* ================================================================== *)
(** ** Ingestion *)

Lemma dropna_tolist_filter (col : list (option string)) :
  map Some (dropna_tolist col) = filter is_some col.
Proof.
  induction col as [|[v|] col IH]; simpl; [reflexivity | now rewrite IH | exact IH].
Qed.










(* ================================================================== *)
(** ** The retry loop *)

Lemma retry_events_succ (req : Request) (a k : nat) :
  retry_events req a (S k) =
  [EvPost req; EvSleep (2 ^ Z.of_nat a)] ++ retry_events req (S a) k.
Proof. reflexivity. Qed.

Lemma rate_limited_raises (r : HttpResponse) :
  (status_code r =? 429) = true -> raises_for_status r = true.
Proof.
  intros H. apply Z.eqb_eq in H. unfold raises_for_status. now rewrite H.
Qed.

(** One attempt that is not rate limited ends the loop. *)
Lemma attempt_loop_settles (E : Env) (req : Request) (a : nat)
    (rest : list nat) (w : World) :
  rate_limited (network E w req) = false ->
  attempt_loop E req (a :: rest) w =
  (settle (network E w req), w ++ [EvPost req]).
Proof.
  intros H. cbn [attempt_loop]. unfold requests_post. run_monad.
  destruct (network E w req) as [d | r]; [reflexivity |].
  simpl in H. simpl. rewrite H.
  destruct (raises_for_status r); reflexivity.
Qed.

(** One rate-limited attempt sleeps and goes on with the next one. *)
Lemma attempt_loop_retries (E : Env) (req : Request) (a : nat)
    (rest : list nat) (w : World) :
  rate_limited (network E w req) = true ->
  attempt_loop E req (a :: rest) w =
  attempt_loop E req rest (w ++ [EvPost req; EvSleep (2 ^ Z.of_nat a)]).
Proof.
  intros H. cbn [attempt_loop]. unfold requests_post. run_monad.
  destruct (network E w req) as [d | r]; [discriminate |].
  simpl in H. rewrite (rate_limited_raises r H), H.
  now rewrite <- app_assoc.
Qed.

(** The loop over the attempts [a, a+1, ..., a+n-1] when the first [k] of
    them are rate limited. *)
Lemma attempt_loop_after (E : Env) (req : Request) (k : nat) :
  forall (a n : nat) (w : World),
    (k <= n)%nat ->
    (forall j, (j < k)%nat ->
       rate_limited (network E (w ++ retry_events req a j) req) = true) ->
    attempt_loop E req (seq a n) w =
    attempt_loop E req (seq (a + k) (n - k)) (w ++ retry_events req a k).
Proof.
  induction k as [|k IH]; intros a n w Hk Hrl.
  - unfold retry_events. simpl. now rewrite app_nil_r, Nat.add_0_r, Nat.sub_0_r.
  - destruct n as [|n]; [lia |]. cbn [seq].
    rewrite attempt_loop_retries.
    + rewrite (IH (S a) n) by
        (try lia; intros j Hj; rewrite <- app_assoc, <- retry_events_succ;
         apply Hrl; lia).
      rewrite <- app_assoc, <- retry_events_succ.
      now replace (S a + k)%nat with (a + S k)%nat by lia.
    + specialize (Hrl 0%nat ltac:(lia)). unfold retry_events in Hrl.
      simpl in Hrl. now rewrite app_nil_r in Hrl.
Qed.

(** What the reading of a body ends in: a dict with the one key
    [sentiment] and a true value, a [Failure], or one of three
    exceptions. *)
Lemma read_choices_shape (r : HttpResponse) :
  match read_choices r with
  | Ok d =>
      (exists content, d = [("sentiment", content)] /\ truthy content = true)
      \/ (exists reason, d = Failure reason)
  | Raise e => body_error e
  end.
Proof.
  unfold read_choices, Failure, body_error.
  destruct (json r) as [details | response_data]; [right; eauto |].
  destruct response_data; cbn [and_then py_get]; try tauto.
  set (choices := dict_get "choices" PyNone items).
  destruct choices; cbn [and_then py_len py_first truthy];
    body_cases; try tauto; try discriminate;
    try (right; eexists; reflexivity);
    try (left; eexists; split; [reflexivity | assumption]).
  all: destruct p; cbn [and_then py_get]; try tauto.
  all: match goal with
       | |- context [dict_get "message" ?d ?i] =>
           destruct (dict_get "message" d i)
       end; cbn [and_then py_get]; try tauto.
  all: match goal with
       | |- context [truthy ?v] => destruct (truthy v) eqn:Htruthy
       end;
       [left; eexists; split; [reflexivity | exact Htruthy]
       | right; eexists; reflexivity].
Qed.

(** A body of the documented shape never makes the reading raise, and a
    [sentiment] it yields is a text. *)
Lemma read_choices_conforms (r : HttpResponse) :
  match json r with
  | BadJson _ => True
  | Json response_data => conforms response_data = true
  end ->
  exists d, read_choices r = Ok d /\
    ((exists text, d = Success text) \/ (exists reason, d = Failure reason)).
Proof.
  unfold read_choices, Success, Failure, conforms.
  destruct (json r) as [details | response_data]; [eauto |].
  destruct response_data; try discriminate. cbn [and_then py_get].
  unfold dict_get.
  destruct (dict_lookup "choices" items) as [[| | | | | |[|[| | | | | | |choice] others]|]|];
    try discriminate; cbn [and_then py_len py_first py_get truthy length];
    try (intros _; eexists; split; [reflexivity | right; eauto]).
  change (0 <? Z.of_nat (length (PyDict choice :: others)))
    with (0 <? Z.pos (Pos.of_succ_nat (length others))).
  cbv iota beta. unfold dict_get.
  destruct (dict_lookup "message" choice) as [[| | | | | | |msg]|];
    try discriminate; cbn [and_then py_get truthy].
  - unfold dict_get.
    destruct (dict_lookup "content" msg) as [[| | | | |text| |]|];
      try discriminate; cbn [truthy]; intros _.
    + eexists; split; [reflexivity | right; eauto].
    + destruct (String.eqb text ""); cbn [negb];
        eexists; (split; [reflexivity |]); [right | left]; eauto.
    + eexists; split; [reflexivity | right; eauto].
  - intros _. cbn. eexists; split; [reflexivity | right; eauto].
Qed.

Lemma settle_shape (o : PostOutcome) :
  match settle o with
  | Ok d =>
      (exists content, d = [("sentiment", content)] /\ truthy content = true)
      \/ (exists reason, d = Failure reason)
  | Raise e => body_error e
  end.
Proof.
  unfold settle. destruct o as [details | r]; [right; eauto |].
  destruct (raises_for_status r); [right; eauto |].
  apply read_choices_shape.
Qed.

Lemma settle_schema (o : PostOutcome) :
  schema_answer o = true ->
  exists d, settle o = Ok d /\
    ((exists text, d = Success text) \/ (exists reason, d = Failure reason)).
Proof.
  unfold settle, schema_answer. destruct o as [details | r]; [eauto |].
  destruct (raises_for_status r); [eauto |]. cbn [orb].
  intros H. apply read_choices_conforms.
  destruct (json r); [exact I | exact H].
Qed.

(** One call of the client: it posts the same request between once and
    [length attempts] times and flashes nothing; it answers with a dict of
    the one key [sentiment] or [error], unless the reading of a body
    raised; against a network that keeps to the documented interface it
    always answers, with a [Success] or a [Failure]. *)
Lemma attempt_loop_total (E : Env) (req : Request) (attempts : list nat) :
  forall w, exists r w' n,
    attempt_loop E req attempts w = (r, w') /\
    (n <= length attempts)%nat /\
    (attempts <> [] -> (1 <= n)%nat) /\
    posts w' = posts w ++ repeat req n /\
    flashes w' = flashes w /\
    match r with
    | Ok d =>
        (exists content, d = [("sentiment", content)] /\ truthy content = true)
        \/ (exists reason, d = Failure reason)
    | Raise e => body_error e /\ (1 <= n)%nat
    end /\
    (well_behaved E ->
     exists d, r = Ok d /\
       ((exists text, d = Success text) \/ (exists reason, d = Failure reason))).
Proof.
  induction attempts as [|a rest IH]; intros w.
  - exists (Ok (Failure "Failed after multiple retries due to rate limiting.")),
      w, 0%nat.
    repeat split; eauto; try (simpl; now rewrite app_nil_r).
    congruence.
  - destruct (rate_limited (network E w req)) eqn:Hrl.
    + rewrite attempt_loop_retries by exact Hrl.
      destruct (IH (w ++ [EvPost req; EvSleep (2 ^ Z.of_nat a)]))
        as (r & w' & n & Hrun & Hn & _ & Hposts & Hfl & Hr & Hwb).
      exists r, w', (S n). split; [exact Hrun |].
      split; [simpl; lia |]. split; [lia |].
      unfold posts, flashes in *. rewrite flat_map_app in Hposts, Hfl.
      simpl in Hposts, Hfl. rewrite app_nil_r in Hfl.
      split; [rewrite Hposts, <- app_assoc; reflexivity |].
      split; [exact Hfl |]. split; [| exact Hwb].
      destruct r; [exact Hr | split; [apply Hr | lia]].
    + rewrite attempt_loop_settles by exact Hrl.
      exists (settle (network E w req)), (w ++ [EvPost req]), 1%nat.
      split; [reflexivity |]. split; [simpl; lia |]. split; [lia |].
      unfold posts, flashes. rewrite !flat_map_app. simpl.
      split; [reflexivity |]. split; [now rewrite app_nil_r |].
      split.
      * pose proof (settle_shape (network E w req)) as Hs.
        destruct (settle (network E w req)); [exact Hs | split; [exact Hs | lia]].
      * intros Hwb. apply settle_schema, Hwb.
Qed.

(** C2: [analyze_sentiment] makes at most three attempts.  While the
    attempts are answered with 429 it sleeps [2^attempt] seconds (1, 2, 4)
    after each and tries again; the first attempt that is not rate limited
    ends the call with that single POST: a transport failure gives
    [Failure "Request failed: ..."], another HTTP error status gives
    [Failure "HTTP error: ..."]; three rate-limited attempts give
    [Failure "Failed after multiple retries due to rate limiting."]. *)
Theorem retry_policy (E : Env) (review : string) (w : World) (k : nat) :
  (k <= 3)%nat ->
  (forall j, (j < k)%nat ->
     rate_limited
       (network E (w ++ retry_events (build_request E review) 0 j)
                (build_request E review)) = true) ->
  let req := build_request E review in
  let w_k := w ++ retry_events req 0 k in
  (exists n, (1 <= n <= 3)%nat /\
     posts (snd (analyze_sentiment E review w)) = posts w ++ repeat req n) /\
  (k = 3%nat ->
     analyze_sentiment E review w =
       (Ok (Failure "Failed after multiple retries due to rate limiting."),
        w_k) /\
     sleeps w_k = sleeps w ++ [1; 2; 4] /\
     posts w_k = posts w ++ [req; req; req]) /\
  ((k < 3)%nat ->
     rate_limited (network E w_k req) = false ->
     analyze_sentiment E review w =
       (settle (network E w_k req), w_k ++ [EvPost req]) /\
     sleeps (w_k ++ [EvPost req]) = sleeps w ++ firstn k [1; 2; 4] /\
     posts (w_k ++ [EvPost req]) = posts w ++ repeat req (S k) /\
     (forall details, network E w_k req = TransportFailure details ->
        settle (network E w_k req)
          = Ok (Failure ("Request failed: " ++ details))) /\
     (forall r, network E w_k req = Responded r ->
        raises_for_status r = true ->
        settle (network E w_k req) =
          Ok (Failure ("HTTP error: " ++ http_error_msg r)))).
Proof.
  intros Hk Hrl req w_k.
  split.
  { destruct (attempt_loop_total E req (seq 0 retry_attempts) w)
      as (r & w' & n & Hrun & Hn & Hpos & Hposts & _).
    exists n. unfold analyze_sentiment. fold req. rewrite Hrun. simpl in *.
    split; [split; [apply Hpos; discriminate | lia] | exact Hposts]. }
  assert (Hloop := attempt_loop_after E req k 0 3 w Hk Hrl).
  fold w_k in Hloop. unfold analyze_sentiment, retry_attempts. fold req.
  rewrite Hloop. split.
  - intros ->. split; [reflexivity |]. unfold w_k, sleeps, posts.
    rewrite !flat_map_app. split; reflexivity.
  - intros Hlt Hnot.
    assert (Hseq : exists a rest, seq (0 + k) (3 - k) = a :: rest).
    { destruct k as [|[|[|k]]]; simpl; eauto; lia. }
    destruct Hseq as (a & rest & ->).
    rewrite attempt_loop_settles by exact Hnot.
    split; [reflexivity |]. unfold w_k, sleeps, posts.
    rewrite !flat_map_app. split; [| split; [| split]].
    + destruct k as [|[|[|k]]]; try lia; rewrite <- !app_assoc; reflexivity.
    + destruct k as [|[|[|k]]]; try lia; rewrite <- !app_assoc; reflexivity.
    + intros details ->. reflexivity.
    + intros r -> Hr. simpl. now rewrite Hr.
Qed.

Lemma retry_policy_witness :
  let E := sample_env three_reviews flaky_network [] in
  let req := build_request E "It was okay" in
  let w_k := [] ++ retry_events req 0 2 in
  (exists n, (1 <= n <= 3)%nat /\
     posts (snd (analyze_sentiment E "It was okay" [])) =
     posts [] ++ repeat req n) /\
  (2%nat = 3%nat ->
     analyze_sentiment E "It was okay" [] =
       (Ok (Failure "Failed after multiple retries due to rate limiting."),
        w_k) /\
     sleeps w_k = sleeps [] ++ [1; 2; 4] /\
     posts w_k = posts [] ++ [req; req; req]) /\
  ((2 < 3)%nat ->
     rate_limited (network E w_k req) = false ->
     analyze_sentiment E "It was okay" [] =
       (settle (network E w_k req), w_k ++ [EvPost req]) /\
     sleeps (w_k ++ [EvPost req]) = sleeps [] ++ firstn 2 [1; 2; 4] /\
     posts (w_k ++ [EvPost req]) = posts [] ++ repeat req 3 /\
     (forall details, network E w_k req = TransportFailure details ->
        settle (network E w_k req)
          = Ok (Failure ("Request failed: " ++ details))) /\
     (forall r, network E w_k req = Responded r ->
        raises_for_status r = true ->
        settle (network E w_k req) =
          Ok (Failure ("HTTP error: " ++ http_error_msg r)))).
Proof.
  apply (retry_policy (sample_env three_reviews flaky_network [])
                      "It was okay" [] 2).
  - lia.
  - intros [|[|j]] Hj; [reflexivity | reflexivity | lia].
Defined.

(* ================================================================== *)
(** ** The credential *)

(** C9, as the code has it: reading the credential never fails.
    [API_KEY] is the value of [GROQ_API_KEY] when the variable is set and
    [None] otherwise, and every request of [analyze_sentiment] (between
    one and three of them) carries [Authorization: Bearer <value>], which
    reads [Bearer None] when the variable is absent. *)
Theorem bearer_token_of_environment (E : Env) (review : string) (w : World) :
  API_KEY E = dict_lookup "GROQ_API_KEY" (environ E) /\
  dict_lookup "Authorization" (req_headers (build_request E review)) =
    Some ("Bearer " ++ match API_KEY E with
                       | Some key => key
                       | None => "None"
                       end)%string /\
  exists n, (1 <= n <= 3)%nat /\
    posts (snd (analyze_sentiment E review w)) =
    posts w ++ repeat (build_request E review) n.
Proof.
  split; [reflexivity |]. split; [reflexivity |].
  destruct (attempt_loop_total E (build_request E review)
              (seq 0 retry_attempts) w)
    as (d & w' & n & Hrun & Hn & Hpos & Hposts & _).
  exists n. unfold analyze_sentiment. rewrite Hrun. simpl in *.
  split; [| exact Hposts]. split; [apply Hpos; discriminate | lia].
Qed.

(** C9 as stated fails: with no [GROQ_API_KEY] in the environment the
    upload is handled to the end, and each of its three requests is sent
    with the header [Authorization: Bearer None]. *)
Lemma absent_key_still_posts :
  API_KEY (sample_env three_reviews keyword_network []) = None /\
  exists results summary w,
    upload_file (sample_env three_reviews keyword_network [])
                (upload_of "reviews.csv") []
      = (Ok (RenderResults results summary), w) /\
    length (posts w) = 3%nat /\
    Forall (fun req => dict_lookup "Authorization" (req_headers req)
                       = Some "Bearer None") (posts w).
Proof.
  split; [reflexivity |].
  eexists _, _, _. split; [vm_compute; reflexivity |].
  split; [reflexivity |]. repeat constructor.
Qed.

(* ================================================================== *)
(** ** A file without the column *)

Lemma allowed_name_not_empty (name : string) :
  allowed_file name = Ok true -> String.eqb name "" = false.
Proof. destruct name; [discriminate | reflexivity]. Qed.

(** C7: when the file is parsed and its table has no column named
    [Review], [process_file] returns no reviews and the message
    "Missing 'Review' column in file.", and [upload_file] flashes that
    message and redirects without a single POST to the API. *)
Theorem missing_review_column (E : Env) (request : FlaskRequest)
    (file : FileStorage) (df : DataFrame) (w : World) :
  method request = "POST" ->
  dict_lookup "file" (files request) = Some file ->
  allowed_file (filename file) = Ok true ->
  run_reader E (reader_for (filename file)) file = Ok df ->
  dict_lookup "Review" df = None ->
  process_file E file = Ok (None, Some "Missing 'Review' column in file.") /\
  upload_file E request w =
    (Ok (Redirect (url request)),
     w ++ [EvFlash "Missing 'Review' column in file."]) /\
  posts (snd (upload_file E request w)) = posts w.
Proof.
  intros Hm Hf Hal Hread Hcol.
  assert (Hp : process_file E file
               = Ok (None, Some "Missing 'Review' column in file.")).
  { unfold process_file. now rewrite Hread, Hcol. }
  assert (Hu : upload_file E request w =
               (Ok (Redirect (url request)),
                w ++ [EvFlash "Missing 'Review' column in file."])).
  { unfold upload_file. rewrite Hm, Hf. cbn [String.eqb Ascii.eqb].
    rewrite (allowed_name_not_empty _ Hal). run_monad.
    rewrite Hal, Hp. reflexivity. }
  split; [exact Hp |]. split; [exact Hu |].
  rewrite Hu. unfold posts. cbn [snd]. rewrite flat_map_app. simpl.
  apply app_nil_r.
Qed.

Lemma missing_review_column_witness :
  process_file (sample_env no_review_column keyword_network [])
               {| filename := "reviews.xlsx"; stream := "" |}
    = Ok (None, Some "Missing 'Review' column in file.") /\
  upload_file (sample_env no_review_column keyword_network [])
              (upload_of "reviews.xlsx") []
    = (Ok (Redirect "http://localhost:5000/"),
       [EvFlash "Missing 'Review' column in file."]) /\
  posts (snd (upload_file (sample_env no_review_column keyword_network [])
                          (upload_of "reviews.xlsx") [])) = posts [].
Proof.
  apply (missing_review_column
           (sample_env no_review_column keyword_network [])
           (upload_of "reviews.xlsx")
           {| filename := "reviews.xlsx"; stream := "" |}
           no_review_column []); reflexivity.
Defined.

(* ================================================================== *)
(** ** The review loop *)

Lemma occurrences_app (l : string) (xs ys : list string) :
  occurrences l (xs ++ ys) = occurrences l xs + occurrences l ys.
Proof. unfold occurrences. rewrite count_occ_app. lia. Qed.

Lemma occurrences_single (l x : string) :
  occurrences l [x] = if String.eqb x l then 1 else 0.
Proof.
  unfold occurrences. simpl. destruct (string_dec x l) as [-> | Hne].
  - now rewrite String.eqb_refl.
  - apply String.eqb_neq in Hne. now rewrite Hne.
Qed.

Lemma labels_of_app (xs ys : list (dict string)) :
  labels_of (xs ++ ys) = labels_of xs ++ labels_of ys.
Proof. apply map_app. Qed.

Lemma keyword_of_valid (lowered : string) :
  valid_label (keyword_of lowered) /\ keyword_of lowered <> "unknown".
Proof.
  unfold keyword_of, valid_label.
  destruct (py_contains "positive" lowered); [split; [tauto | discriminate] |].
  destruct (py_contains "negative" lowered); split; try tauto; discriminate.
Qed.

Lemma classify_sentiment_valid (v : pyvalue) :
  match classify_sentiment v with
  | Ok l => valid_label l /\ l <> "unknown" /\ exists text, v = PyStr text
  | Raise e => e = AttributeError
  end.
Proof.
  destruct v; try reflexivity.
  rewrite classify_sentiment_str.
  destruct (keyword_of_valid (py_lower s)) as [Hv Hu]. eauto.
Qed.

Lemma label_of_success (E : Env) (text : string) (w : World) :
  label_of E (Success text) w = (Ok (keyword_of (py_lower text)), w).
Proof. reflexivity. Qed.

Lemma label_of_failure (E : Env) (reason : string) (w : World) :
  label_of E (Failure reason) w =
  (Ok "unknown",
   w ++ [EvFlash ("Error analyzing sentiment for review: " ++ reason)]).
Proof. reflexivity. Qed.

(** The label of an answer: a valid label, or the [AttributeError] of a
    [sentiment] that is not a text; no POST either way. *)
Lemma label_of_total (E : Env) (d : dict pyvalue) (w : World) :
  exists r w', label_of E d w = (r, w') /\ posts w' = posts w /\
    match r with
    | Ok l => valid_label l
    | Raise e => e = AttributeError
    end.
Proof.
  unfold label_of, dict_has.
  destruct (dict_lookup "sentiment" d) as [v|].
  - exists (classify_sentiment v), w.
    split; [reflexivity |]. split; [reflexivity |].
    pose proof (classify_sentiment_valid v) as H.
    destruct (classify_sentiment v); [apply H | exact H].
  - run_monad. eexists _, _. split; [reflexivity |].
    split; [| unfold valid_label; tauto].
    unfold posts. rewrite flat_map_app. simpl. apply app_nil_r.
Qed.

Lemma count_label_results (t : Tally) (review l : string) :
  results (count_label t review l) =
  results t ++ [[("review", review); ("sentiment", l)]].
Proof.
  unfold count_label.
  destruct (String.eqb l "positive"); [reflexivity |].
  destruct (String.eqb l "negative"); reflexivity.
Qed.

Lemma count_label_tallied (t : Tally) (review l : string) :
  tallied t -> valid_label l -> tallied (count_label t review l).
Proof.
  unfold tallied. cbv zeta. intros (Hp & Hn & Hu & Hv & Hk) Hl.
  rewrite count_label_results, labels_of_app, !occurrences_app.
  assert (Hlab : labels_of [[("review", review); ("sentiment", l)]] = [l])
    by reflexivity.
  rewrite Hlab.
  repeat split.
  4: { apply Forall_app. split; [exact Hv | now constructor]. }
  4: { apply Forall_app. split; [exact Hk | now constructor]. }
  all: destruct Hl as [-> | [-> | [-> | ->]]]; rewrite !occurrences_single;
    cbn -[Z.add Z.of_nat]; lia.
Qed.

(** One turn of the loop: the client's call, the label, the rest. *)
Lemma review_loop_step (E : Env) (review : string) (rest : list string)
    (t0 : Tally) (w : World) :
  exists r w1 n,
    analyze_sentiment E review w = (r, w1) /\
    (1 <= n <= 3)%nat /\
    posts w1 = posts w ++ repeat (build_request E review) n /\
    flashes w1 = flashes w /\
    (well_behaved E ->
     exists d, r = Ok d /\
       ((exists text, d = Success text) \/ (exists reason, d = Failure reason))) /\
    match r with
    | Raise e =>
        body_error e /\
        review_loop E (review :: rest) t0 w = (Raise e, w1)
    | Ok d =>
        exists r2 w2,
          label_of E d w1 = (r2, w2) /\ posts w2 = posts w1 /\
          match r2 with
          | Raise e =>
              e = AttributeError /\
              review_loop E (review :: rest) t0 w = (Raise e, w2)
          | Ok l =>
              valid_label l /\
              review_loop E (review :: rest) t0 w
                = review_loop E rest (count_label t0 review l) w2
          end
    end.
Proof.
  destruct (attempt_loop_total E (build_request E review)
              (seq 0 retry_attempts) w)
    as (r & w1 & n & Hrun & Hn & Hpos & Hposts & Hfl & Hr & Hwb).
  exists r, w1, n. fold (analyze_sentiment E review) in Hrun.
  split; [exact Hrun |].
  split; [simpl in Hn; split; [apply Hpos; discriminate | lia] |].
  split; [exact Hposts |]. split; [exact Hfl |]. split; [exact Hwb |].
  destruct r as [d | e].
  - destruct (label_of_total E d w1) as (r2 & w2 & Hl & Hp2 & Hr2).
    exists r2, w2. split; [exact Hl |]. split; [exact Hp2 |].
    destruct r2 as [l | e]; (split; [exact Hr2 |]);
      cbn [review_loop]; unfold bind at 1; rewrite Hrun;
      unfold bind at 1; now rewrite Hl.
  - split; [apply Hr |].
    cbn [review_loop]. unfold bind at 1. now rewrite Hrun.
Qed.

Lemma posts_grow (w : World) (req : Request) (n : nat) (ps : list Request) :
  (1 <= n)%nat -> ps = posts w ++ repeat req n ->
  (length (posts w) < length ps)%nat.
Proof. intros Hn ->. rewrite length_app, repeat_length. lia. Qed.

(** The loop from a tally that agrees with its entries: it completes
    with such a tally and one more entry per review, or it ends in an
    exception of a body after at least one POST; against a network that
    keeps to the documented interface it completes. *)
Lemma review_loop_spec (E : Env) (reviews : list string) :
  forall t0 w, tallied t0 ->
    exists r w',
      review_loop E reviews t0 w = (r, w') /\
      match r with
      | Ok t =>
          tallied t /\
          reviews_of (results t) = reviews_of (results t0) ++ reviews
      | Raise e =>
          body_error e /\ (length (posts w) < length (posts w'))%nat
      end /\
      (length (posts w) <= length (posts w'))%nat /\
      (well_behaved E -> exists t, r = Ok t).
Proof.
  induction reviews as [|review rest IH]; intros t0 w Ht0.
  - exists (Ok t0), w. split; [reflexivity |].
    split; [split; [exact Ht0 | now rewrite app_nil_r] |].
    split; [lia | eauto].
  - destruct (review_loop_step E review rest t0 w)
      as (r & w1 & n & Hrun & Hn & Hposts & _ & Hwb & Hr).
    pose proof (posts_grow w _ n _ ltac:(lia) Hposts) as Hgrow.
    destruct r as [d | e].
    + destruct Hr as (r2 & w2 & Hl & Hp2 & Hr2).
      destruct r2 as [l | e].
      * destruct Hr2 as [Hvalid Hstep].
        destruct (IH (count_label t0 review l) w2
                     (count_label_tallied t0 review l Ht0 Hvalid))
          as (r & w' & Hloop & Hres & Hmono & Htot).
        exists r, w'. rewrite Hstep. split; [exact Hloop |].
        rewrite Hp2 in Hmono. split.
        -- destruct r as [t | e].
           ++ destruct Hres as [Ht Hrev]. split; [exact Ht |].
              rewrite Hrev, count_label_results. unfold reviews_of.
              rewrite map_app, <- app_assoc. reflexivity.
           ++ destruct Hres as [He Hlt]. split; [exact He |].
              rewrite Hp2 in Hlt. lia.
        -- split; [lia | exact Htot].
      * destruct Hr2 as [-> Hstep].
        exists (Raise AttributeError), w2. split; [exact Hstep |].
        rewrite Hp2.
        split; [split; [unfold body_error; tauto | exact Hgrow] |].
        split; [lia |].
        intros Hw. destruct (Hwb Hw) as (d' & Hd' & Hshape).
        injection Hd' as <-.
        destruct Hshape as [[text ->] | [reason ->]].
        -- rewrite label_of_success in Hl. discriminate.
        -- rewrite label_of_failure in Hl. discriminate.
    + destruct Hr as [He Hstep].
      exists (Raise e), w1. split; [exact Hstep |].
      split; [split; [exact He | exact Hgrow] |].
      split; [lia |].
      intros Hw. destruct (Hwb Hw) as (d' & Hd' & _). discriminate.
Qed.

Lemma valid_labels_counted (labels : list string) :
  Forall valid_label labels ->
  occurrences "positive" labels + occurrences "negative" labels +
  (occurrences "neutral" labels + occurrences "unknown" labels) =
  Z.of_nat (length labels).
Proof.
  induction 1 as [|l ls Hl _ IH]; [reflexivity |].
  change (l :: ls) with ([l] ++ ls). rewrite !occurrences_app.
  rewrite length_app, Nat2Z.inj_add, <- IH.
  destruct Hl as [-> | [-> | [-> | ->]]]; rewrite !occurrences_single;
    cbn -[Z.add Z.of_nat]; lia.
Qed.

Lemma tallied_empty : tallied empty_tally.
Proof. unfold tallied. simpl. repeat split; constructor. Qed.

Lemma sample_networks_well_behaved (df : DataFrame) (vars : dict string) :
  well_behaved (sample_env df keyword_network vars) /\
  well_behaved (sample_env df busy_network vars) /\
  well_behaved (sample_env df flaky_network vars).
Proof.
  unfold well_behaved. split; [| split]; intros w req;
    cbn [network sample_env].
  - unfold keyword_network.
    destruct (py_contains "Great" (prompt_of req)); [reflexivity |].
    destruct (py_contains "Terrible" (prompt_of req)); reflexivity.
  - reflexivity.
  - unfold flaky_network. destruct (length (posts w) <? 2)%nat; reflexivity.
Qed.

(** What a completed loop leaves behind. *)
Lemma completed_loop (E : Env) (reviews : list string) (w w' : World)
    (t : Tally) :
  review_loop E reviews empty_tally w = (Ok t, w') ->
  tallied t /\
  reviews_of (results t) = reviews /\
  length (results t) = length reviews /\
  positive_count t + negative_count t + neutral_count t
    = Z.of_nat (length reviews).
Proof.
  intros Hloop.
  destruct (review_loop_spec E reviews empty_tally w tallied_empty)
    as (r & w1 & Hrun & Hres & _).
  rewrite Hloop in Hrun. injection Hrun as <- <-.
  destruct Hres as [Ht Hrev]. simpl in Hrev.
  assert (Hlen : length (results t) = length reviews).
  { rewrite <- Hrev. unfold reviews_of. now rewrite length_map. }
  repeat (split; [assumption |]).
  destruct Ht as (Hp & Hn & Hu & Hv & Hk).
  rewrite Hp, Hn, Hu, (valid_labels_counted _ Hv).
  unfold labels_of. now rewrite length_map, Hlen.
Qed.

(** C10: after the loop over any list of reviews the three counters add
    up to the number of reviews, and the results hold one entry per
    review, in order, with the keys [review] and [sentiment].  The loop
    gets there whenever the network keeps to the documented interface;
    the one other way out of it is an exception raised on a response
    body of another shape. *)
Theorem counts_partition_reviews (E : Env) (reviews : list string)
    (w : World) :
  (forall t w',
      review_loop E reviews empty_tally w = (Ok t, w') ->
      positive_count t + negative_count t + neutral_count t
        = Z.of_nat (length reviews) /\
      length (results t) = length reviews /\
      reviews_of (results t) = reviews /\
      Forall (fun entry => dict_keys entry = ["review"; "sentiment"])
             (results t) /\
      Forall valid_label (labels_of (results t))) /\
  (well_behaved E ->
   exists t w', review_loop E reviews empty_tally w = (Ok t, w')) /\
  (forall e w',
      review_loop E reviews empty_tally w = (Raise e, w') -> body_error e).
Proof.
  split; [| split].
  - intros t w' Hloop.
    destruct (completed_loop E reviews w w' t Hloop)
      as ((_ & _ & _ & Hv & Hk) & Hrev & Hlen & Hsum).
    auto.
  - intros Hwb.
    destruct (review_loop_spec E reviews empty_tally w tallied_empty)
      as (r & w' & Hrun & _ & _ & Htot).
    destruct (Htot Hwb) as [t ->]. eauto.
  - intros e w' Hloop.
    destruct (review_loop_spec E reviews empty_tally w tallied_empty)
      as (r & w1 & Hrun & Hres & _).
    rewrite Hloop in Hrun. injection Hrun as <- <-. apply Hres.
Qed.

Lemma counts_partition_reviews_witness :
  exists t w',
    review_loop (sample_env three_reviews flaky_network [])
                ["Great product!"; "It was okay"] empty_tally []
      = (Ok t, w') /\
    positive_count t + negative_count t + neutral_count t = 2 /\
    length (results t) = 2%nat /\
    reviews_of (results t) = ["Great product!"; "It was okay"].
Proof.
  destruct (proj1 (proj2 (counts_partition_reviews
                            (sample_env three_reviews flaky_network [])
                            ["Great product!"; "It was okay"] []))
              (proj2 (proj2 (sample_networks_well_behaved three_reviews []))))
    as (t & w' & Hloop).
  exists t, w'. split; [exact Hloop |].
  destruct (proj1 (counts_partition_reviews
                     (sample_env three_reviews flaky_network [])
                     ["Great product!"; "It was okay"] []) t w' Hloop)
    as (Hsum & Hlen & Hrev & _).
  auto.
Defined.

(* ================================================================== *)
(** ** Rounding *)

Lemma rne_div_spec (a b : Z) :
  0 <= a -> 0 < b ->
  0 <= rne_div a b /\ - b <= 2 * (rne_div a b * b - a) <= b.
Proof.
  intros Ha Hb. unfold rne_div. cbv zeta.
  pose proof (Z.div_mod a b ltac:(lia)) as Hdm.
  pose proof (Z.mod_pos_bound a b Hb) as Hr.
  pose proof (Z.div_pos a b Ha Hb) as Hq.
  destruct (2 * (a mod b) <? b) eqn:H1; [apply Z.ltb_lt in H1; nia |].
  apply Z.ltb_ge in H1.
  destruct (b <? 2 * (a mod b)) eqn:H2; [apply Z.ltb_lt in H2; nia |].
  apply Z.ltb_ge in H2.
  destruct (Z.even (a / b)); nia.
Qed.

Local Open Scope Q_scope.

Lemma Q_quotient_bound (M A B D : Q) :
  0 < B -> inject_Z (2 ^ 52) <= D ->
  - B <= 2 * (M * B - A * D) -> 2 * (M * B - A * D) <= B ->
  - (1 # 2 ^ 53) <= M / D - A / B /\ M / D - A / B <= 1 # 2 ^ 53.
Proof.
  intros HB HD Hlo Hhi.
  assert (HD0 : 0 < D).
  { eapply Qlt_le_trans; [| exact HD]. reflexivity. }
  assert (HDB : 0 < D * B) by (apply Qmult_lt_0_compat; assumption).
  assert (Heq : M / D - A / B == (M * B - A * D) / (D * B)).
  { field. split; apply Qnot_eq_sym, Qlt_not_eq; assumption. }
  assert (Hbig : B * inject_Z (2 ^ 52) <= D * B).
  { rewrite (Qmult_comm D B). apply Qmult_le_l; assumption. }
  rewrite Heq. split.
  - apply Qle_shift_div_l; [exact HDB |].
    change (inject_Z (2 ^ 52)) with (4503599627370496 # 1) in Hbig.
    change (2 ^ 53)%positive with 9007199254740992%positive.
    lra.
  - apply Qle_shift_div_r; [exact HDB |].
    change (inject_Z (2 ^ 52)) with (4503599627370496 # 1) in Hbig.
    change (2 ^ 53)%positive with 9007199254740992%positive.
    lra.
Qed.

Lemma Qpower2_opp (n : Z) :
  (0 <= n)%Z -> (2 # 1) ^ (- n) == / inject_Z (2 ^ n).
Proof.
  intros Hn. rewrite Qpower_opp, (Zpower_Qpower 2 n Hn). reflexivity.
Qed.

Lemma F2Q_neg_exp (m n : Z) :
  (0 <= n)%Z -> F2Q (Float m (- n)) == inject_Z m / inject_Z (2 ^ n).
Proof. intros Hn. unfold F2Q, Qdiv. now rewrite Qpower2_opp. Qed.

Lemma F2Q_pos_exp (m e : Z) :
  (0 <= e)%Z -> F2Q (Float m e) == inject_Z (m * 2 ^ e).
Proof.
  intros He. unfold F2Q.
  rewrite inject_Z_mult, (Zpower_Qpower 2 e He). reflexivity.
Qed.

Lemma inject_Z_sub (x y : Z) : inject_Z (x - y) == inject_Z x - inject_Z y.
Proof.
  unfold Qminus. rewrite <- inject_Z_opp, <- inject_Z_plus. reflexivity.
Qed.

Lemma inject_pow2_pos (n : Z) : (0 <= n)%Z -> 0 < inject_Z (2 ^ n).
Proof.
  intros Hn. change 0 with (inject_Z 0). rewrite <- Zlt_Qlt.
  now apply Z.pow_pos_nonneg.
Qed.

(** The exponent of a quotient that is at most 1 is at most -52, and the
    significand is the rounded quotient scaled by a power of two. *)
Lemma nearest_pos_form (a b : Z) :
  (0 < a <= b)%Z ->
  exists m n,
    (52 <= n)%Z /\ (0 <= m)%Z /\
    (- b <= 2 * (m * b - a * 2 ^ n) <= b)%Z /\
    F2Q (nearest_pos a b) == inject_Z m / inject_Z (2 ^ n).
Proof.
  intros [Ha Hab]. unfold nearest_pos.
  set (s := Z.log2_up b).
  set (ex := (Z.log2 (a * 2 ^ s / b) - s)%Z).
  set (e := Z.max (ex - 52) (-1074)).
  assert (Hs : (0 <= s)%Z) by apply Z.log2_up_nonneg.
  assert (Hex : (ex <= 0)%Z).
  { unfold ex.
    assert (Hq : (a * 2 ^ s / b <= 2 ^ s)%Z).
    { apply Z.div_le_upper_bound; [lia |].
      pose proof (Z.pow_pos_nonneg 2 s ltac:(lia) Hs). nia. }
    apply Z.log2_le_mono in Hq. rewrite Z.log2_pow2 in Hq by exact Hs. lia. }
  assert (He : (e <= -52)%Z) by (unfold e; lia).
  assert (Hneg : (0 <=? e)%Z = false) by (apply Z.leb_gt; lia).
  rewrite Hneg.
  set (n := (- e)%Z). assert (Hn : (52 <= n)%Z) by (unfold n; lia).
  pose proof (Z.pow_pos_nonneg 2 n ltac:(lia) ltac:(lia)) as Hpow.
  destruct (rne_div_spec (a * 2 ^ n) b ltac:(nia) ltac:(lia)) as [Hm0 Hm].
  set (m := rne_div (a * 2 ^ n) b) in *.
  exists m, n. split; [exact Hn |]. split; [exact Hm0 |]. split; [exact Hm |].
  replace e with (- n)%Z by (unfold n; lia).
  destruct (m =? 2 ^ 53)%Z eqn:Hm53.
  - apply Z.eqb_eq in Hm53. rewrite Hm53.
    replace (- n + 1)%Z with (- (n - 1))%Z by lia.
    rewrite F2Q_neg_exp by lia.
    replace (2 ^ n)%Z with (2 * 2 ^ (n - 1))%Z
      by (rewrite <- Z.pow_succ_r by lia; f_equal; lia).
    rewrite inject_Z_mult.
    pose proof (inject_pow2_pos (n - 1) ltac:(lia)) as Hd.
    change (inject_Z (2 ^ 53)) with (2 * inject_Z (2 ^ 52)).
    change (inject_Z 2) with 2.
    field. apply Qnot_eq_sym, Qlt_not_eq. exact Hd.
  - apply F2Q_neg_exp. lia.
Qed.

(** A float and the rational it rounds: for [0 <= a <= b] the quotient
    [a / b] is off by at most [2^-53]. *)
Lemma nearest_error (a b : Z) :
  (0 <= a <= b)%Z -> (0 < b)%Z ->
  exists m e,
    nearest a b = Float m e /\ (0 <= m)%Z /\
    - (1 # 2 ^ 53) <= F2Q (nearest a b) - inject_Z a / inject_Z b /\
    F2Q (nearest a b) - inject_Z a / inject_Z b <= 1 # 2 ^ 53.
Proof.
  intros [Ha Hab] Hb. unfold nearest.
  destruct (a =? 0)%Z eqn:Ha0.
  - apply Z.eqb_eq in Ha0. subst a. exists 0%Z, 0%Z.
    split; [reflexivity |]. split; [lia |].
    assert (H0 : F2Q (Float 0 0) - inject_Z 0 / inject_Z b == 0).
    { unfold F2Q, Qdiv. change (inject_Z 0) with 0. ring. }
    rewrite H0. split; discriminate.
  - apply Z.eqb_neq in Ha0.
    destruct (nearest_pos_form a b ltac:(lia)) as (m & n & Hn & Hm0 & Hm & Hv).
    rewrite (Z.abs_eq a), (Z.abs_eq b) by lia.
    rewrite (Z.sgn_pos a), (Z.sgn_pos b) by lia.
    destruct (nearest_pos a b) as [m' e'] eqn:Hnp.
    assert (Hm' : (0 <= m')%Z).
    { revert Hnp. unfold nearest_pos. cbv zeta.
      match goal with
      | |- context [if ?c then rne_div ?x ?y else rne_div ?x' ?y'] =>
          set (mm := if c then rne_div x y else rne_div x' y')
      end.
      assert (Hmm : (0 <= mm)%Z).
      { unfold mm. destruct (0 <=? _)%Z eqn:Hc.
        - apply Z.leb_le in Hc.
          pose proof (Z.pow_nonneg 2 (Z.max
            (Z.log2 (a * 2 ^ Z.log2_up b / b) - Z.log2_up b - 52) (-1074))
            ltac:(lia)).
          pose proof (Z.pow_pos_nonneg 2 (Z.max
            (Z.log2 (a * 2 ^ Z.log2_up b / b) - Z.log2_up b - 52) (-1074))
            ltac:(lia) Hc).
          apply rne_div_spec; nia.
        - pose proof (Z.pow_nonneg 2 (- Z.max
            (Z.log2 (a * 2 ^ Z.log2_up b / b) - Z.log2_up b - 52) (-1074))
            ltac:(lia)).
          apply rne_div_spec; nia. }
      destruct (mm =? 2 ^ 53)%Z; intros H; injection H as <- _; lia. }
    exists (1 * 1 * m')%Z, e'. split; [reflexivity |]. split; [lia |].
    replace (1 * 1 * m')%Z with m' by lia.
    rewrite Hv.
    apply Q_quotient_bound.
    + change 0 with (inject_Z 0). now rewrite <- Zlt_Qlt.
    + rewrite <- Zle_Qle. apply Z.pow_le_mono_r; lia.
    + rewrite <- !inject_Z_mult, <- inject_Z_sub.
      change 2 with (inject_Z 2). rewrite <- inject_Z_mult, <- inject_Z_opp.
      rewrite <- Zle_Qle. lia.
    + rewrite <- !inject_Z_mult, <- inject_Z_sub.
      change 2 with (inject_Z 2). rewrite <- inject_Z_mult.
      rewrite <- Zle_Qle. lia.
Qed.

(** Rounding to hundredths moves the exact value of a non-negative float
    by at most half a hundredth. *)
Lemma scaled_round_error (m e : Z) :
  (0 <= m)%Z ->
  (0 <= scaled_round (Float m e) 2)%Z /\
  - (1 # 2) <= inject_Z (scaled_round (Float m e) 2) - 100 * F2Q (Float m e) /\
  inject_Z (scaled_round (Float m e) 2) - 100 * F2Q (Float m e) <= 1 # 2.
Proof.
  intros Hm. unfold scaled_round. cbv zeta.
  change (10 ^ Z.of_nat 2)%Z with 100%Z.
  destruct (0 <=? e)%Z eqn:He.
  - apply Z.leb_le in He.
    pose proof (Z.pow_nonneg 2 e ltac:(lia)) as Hp.
    split; [nia |].
    rewrite (F2Q_pos_exp m e He), (inject_Z_mult (m * 2 ^ e) 100).
    change (inject_Z 100) with 100.
    split; lra.
  - apply Z.leb_gt in He.
    assert (Hex : exists n, (0 <= n)%Z /\ e = (- n)%Z)
      by (exists (- e)%Z; lia).
    destruct Hex as (n & Hn & ->). rewrite Z.opp_involutive.
    rewrite (F2Q_neg_exp m n Hn).
    pose proof (Z.pow_pos_nonneg 2 n ltac:(lia) Hn) as Hpow.
    pose proof (inject_pow2_pos n Hn) as HD.
    destruct (rne_div_spec (Z.abs m * 100) (2 ^ n) ltac:(lia) Hpow)
      as [Hk0 Hk].
    set (k := rne_div (Z.abs m * 100) (2 ^ n)) in *.
    assert (Hcases : (m = 0 \/ 0 < m)%Z) by lia.
    assert (Hsk : (Z.sgn m * k = k)%Z).
    { destruct Hcases as [-> | Hpos].
      - simpl. unfold k. simpl. unfold rne_div. rewrite Z.div_0_l, Z.mod_0_l by lia.
        destruct (2 * 0 <? 2 ^ n)%Z eqn:Hc; [reflexivity |].
        apply Z.ltb_ge in Hc. lia.
      - rewrite Z.sgn_pos by exact Hpos. lia. }
    rewrite Hsk. rewrite Z.abs_eq in Hk by exact Hm.
    split; [exact Hk0 |].
    assert (Heq : inject_Z k - 100 * (inject_Z m / inject_Z (2 ^ n)) ==
                  (inject_Z k * inject_Z (2 ^ n) - inject_Z m * 100)
                  / inject_Z (2 ^ n)).
    { field. apply Qnot_eq_sym, Qlt_not_eq. exact HD. }
    rewrite Heq.
    assert (Hlo : - inject_Z (2 ^ n)
                  <= 2 * (inject_Z k * inject_Z (2 ^ n) - inject_Z m * 100)).
    { change 100 with (inject_Z 100). change 2 with (inject_Z 2).
      rewrite <- !inject_Z_mult, <- inject_Z_sub, <- inject_Z_mult,
        <- inject_Z_opp, <- Zle_Qle. lia. }
    assert (Hhi : 2 * (inject_Z k * inject_Z (2 ^ n) - inject_Z m * 100)
                  <= inject_Z (2 ^ n)).
    { change 100 with (inject_Z 100). change 2 with (inject_Z 2).
      rewrite <- !inject_Z_mult, <- inject_Z_sub, <- inject_Z_mult,
        <- Zle_Qle. lia. }
    split.
    + apply Qle_shift_div_l; [exact HD | lra].
    + apply Qle_shift_div_r; [exact HD | lra].
Qed.

Lemma Z_of_Q_le (k c : Z) : inject_Z k < inject_Z c + 1 -> (k <= c)%Z.
Proof.
  intros H. change 1 with (inject_Z 1) in H.
  rewrite <- inject_Z_plus, <- Zlt_Qlt in H. lia.
Qed.

(** One reported proportion: [round(a / b, 2)] for [0 <= a <= b] is the
    float nearest to [k / 100] for an integer [k] of hundredths that is
    within a half (and a rounding error of the division) of
    [100 * a / b]. *)
Lemma proportion_error (a b : Z) :
  (0 <= a <= b)%Z -> (0 < b)%Z ->
  exists k,
    py_round (nearest a b) 2 = nearest k 100 /\
    (0 <= k <= 100)%Z /\
    - (1 # 2) - (100 # 2 ^ 53)
      <= inject_Z k - 100 * (inject_Z a / inject_Z b) /\
    inject_Z k - 100 * (inject_Z a / inject_Z b)
      <= (1 # 2) + (100 # 2 ^ 53) /\
    - (1 # 2 ^ 53)
      <= F2Q (py_round (nearest a b) 2) - inject_Z k / 100 /\
    F2Q (py_round (nearest a b) 2) - inject_Z k / 100 <= 1 # 2 ^ 53.
Proof.
  intros Hab Hb.
  destruct (nearest_error a b Hab Hb) as (m & e & Hv & Hm & Hlo & Hhi).
  rewrite Hv in *.
  destruct (scaled_round_error m e Hm) as (Hk0 & Hklo & Hkhi).
  set (k := scaled_round (Float m e) 2) in *.
  assert (Hq1 : inject_Z a / inject_Z b <= 1).
  { apply Qle_shift_div_r.
    - change 0 with (inject_Z 0). rewrite <- Zlt_Qlt. exact Hb.
    - rewrite Qmult_1_l, <- Zle_Qle. lia. }
  change (2 ^ 53)%positive with 9007199254740992%positive in *.
  assert (Hk100 : (k <= 100)%Z).
  { apply Z_of_Q_le. change (inject_Z 100) with 100. lra. }
  exists k. split; [reflexivity |]. split; [lia |].
  split; [lra |]. split; [lra |].
  unfold py_round. fold k. change (10 ^ Z.of_nat 2)%Z with 100%Z.
  destruct (nearest_error k 100 ltac:(lia) ltac:(lia))
    as (m' & e' & _ & _ & Hlo' & Hhi').
  change (inject_Z 100) with 100 in *.
  change (2 ^ 53)%positive with 9007199254740992%positive in *.
  split; assumption.
Qed.

(** Below a total of [2^45] the error of the division cannot move the
    hundredths to a whole number that is not a nearest one. *)
Lemma whole_hundredths (k c t : Z) :
  (0 < t < 2 ^ 45)%Z ->
  - (1 # 2) - (100 # 2 ^ 53) <= inject_Z k - 100 * (inject_Z c / inject_Z t) ->
  inject_Z k - 100 * (inject_Z c / inject_Z t) <= (1 # 2) + (100 # 2 ^ 53) ->
  (2 * Z.abs (k * t - 100 * c) <= t)%Z.
Proof.
  intros [Ht0 Ht] Hlo Hhi.
  assert (HT0 : 0 < inject_Z t)
    by (change 0 with (inject_Z 0); now rewrite <- Zlt_Qlt).
  assert (HT : inject_Z t <= 35184372088831 # 1).
  { change (35184372088831 # 1) with (inject_Z (2 ^ 45 - 1)).
    rewrite <- Zle_Qle. lia. }
  assert (HrT : inject_Z c / inject_Z t * inject_Z t == inject_Z c).
  { field. apply Qnot_eq_sym, Qlt_not_eq. exact HT0. }
  set (r := inject_Z c / inject_Z t) in *.
  assert (H1 : (inject_Z k - 100 * r) * inject_Z t
               <= ((1 # 2) + (100 # 2 ^ 53)) * inject_Z t).
  { apply Qmult_le_compat_r; [exact Hhi | now apply Qlt_le_weak]. }
  assert (H2 : (- (1 # 2) - (100 # 2 ^ 53)) * inject_Z t
               <= (inject_Z k - 100 * r) * inject_Z t).
  { apply Qmult_le_compat_r; [exact Hlo | now apply Qlt_le_weak]. }
  assert (Hexp : (inject_Z k - 100 * r) * inject_Z t
                 == inject_Z k * inject_Z t - 100 * (r * inject_Z t))
    by ring.
  rewrite Hexp, HrT in H1, H2.
  change (2 ^ 53)%positive with 9007199254740992%positive in *.
  set (KT := inject_Z k * inject_Z t) in *.
  assert (Hup : inject_Z (2 * (k * t - 100 * c)) < inject_Z (t + 1)).
  { rewrite inject_Z_plus, inject_Z_mult, inject_Z_sub, !inject_Z_mult.
    fold KT.
    change (inject_Z 2) with 2. change (inject_Z 100) with 100.
    change (inject_Z 1) with 1. lra. }
  assert (Hdn : inject_Z (- (t + 1)) < inject_Z (2 * (k * t - 100 * c))).
  { rewrite inject_Z_opp, inject_Z_plus, inject_Z_mult, inject_Z_sub,
      !inject_Z_mult.
    fold KT.
    change (inject_Z 2) with 2. change (inject_Z 100) with 100.
    change (inject_Z 1) with 1. lra. }
  rewrite <- Zlt_Qlt in Hup, Hdn. lia.
Qed.

Local Close Scope Q_scope.

Lemma rounded_share_of (a b : Z) :
  0 <= a <= b -> 0 < b -> rounded_share a b (py_round (nearest a b) 2).
Proof.
  intros Hab Hb.
  destruct (proportion_error a b Hab Hb)
    as (k & Hk & Hk100 & Hlo & Hhi & _).
  exists k. split; [exact Hk100 |]. split; [exact Hk |].
  split; [exact Hlo |]. split; [exact Hhi |].
  intros Hlt. apply whole_hundredths; [lia | exact Hlo | exact Hhi].
Qed.

(** A quotient that is at most 1 never overflows. *)
Lemma nearest_no_overflow (a b : Z) :
  0 <= a <= b -> 0 < b -> overflows (nearest a b) = false.
Proof.
  intros [Ha Hab] Hb. unfold nearest.
  destruct (a =? 0) eqn:Ha0; [reflexivity |].
  apply Z.eqb_neq in Ha0.
  rewrite (Z.abs_eq a), (Z.abs_eq b) by lia.
  unfold nearest_pos.
  set (s := Z.log2_up b).
  set (e := Z.max (Z.log2 (a * 2 ^ s / b) - s - 52) (-1074)).
  assert (He : e <= -52).
  { assert (Hs : 0 <= s) by apply Z.log2_up_nonneg.
    assert (Hq : a * 2 ^ s / b <= 2 ^ s).
    { apply Z.div_le_upper_bound; [lia |].
      pose proof (Z.pow_pos_nonneg 2 s ltac:(lia) Hs). nia. }
    apply Z.log2_le_mono in Hq. rewrite Z.log2_pow2 in Hq by exact Hs.
    unfold e. lia. }
  cbv zeta.
  match goal with
  | |- context [if ?c then Float ?m1 ?e1 else Float ?m2 ?e2] =>
      destruct c
  end; cbv beta iota; unfold overflows.
  - rewrite (Z.pow_neg_r 2 (e + 1)) by lia. now rewrite Z.mul_0_r.
  - rewrite (Z.pow_neg_r 2 e) by lia. now rewrite Z.mul_0_r.
Qed.

Lemma int_truediv_ok (a b : Z) :
  0 <= a <= b -> 0 < b -> int_truediv a b = Ok (nearest a b).
Proof.
  intros Hab Hb. unfold int_truediv.
  destruct (b =? 0) eqn:Hb0; [apply Z.eqb_eq in Hb0; lia |].
  now rewrite nearest_no_overflow.
Qed.

Lemma occurrences_nonneg (l : string) (ls : list string) :
  0 <= occurrences l ls.
Proof. unfold occurrences. lia. Qed.

(** The summary of a tally whose counters add up to the number of
    reviews, when there is at least one review. *)
Lemma sentiment_summary_ok (t : Tally) (reviews : list string) (w : World) :
  reviews <> [] ->
  0 <= positive_count t -> 0 <= negative_count t -> 0 <= neutral_count t ->
  positive_count t + negative_count t + neutral_count t
    = Z.of_nat (length reviews) ->
  sentiment_summary t reviews w =
  (Ok [("positive",
        py_round (nearest (positive_count t) (Z.of_nat (length reviews))) 2);
       ("negative",
        py_round (nearest (negative_count t) (Z.of_nat (length reviews))) 2);
       ("neutral",
        py_round (nearest (neutral_count t) (Z.of_nat (length reviews))) 2)],
   w).
Proof.
  intros Hne Hp Hn Hu Hsum.
  assert (HN : 0 < Z.of_nat (length reviews)).
  { destruct reviews; [congruence | simpl; lia]. }
  unfold sentiment_summary. cbv zeta. run_monad.
  rewrite !int_truediv_ok by lia. reflexivity.
Qed.

(** What [upload_file] renders once the loop over a non-empty list of
    reviews has completed. *)
Lemma analyse_reviews_completed (E : Env) (reviews : list string)
    (w w' : World) (t : Tally) :
  reviews <> [] ->
  review_loop E reviews empty_tally w = (Ok t, w') ->
  analyse_reviews E reviews w =
  (Ok (RenderResults (results t)
                     (summary_of t (Z.of_nat (length reviews)))), w').
Proof.
  intros Hne Hloop.
  destruct (completed_loop E reviews w w' t Hloop)
    as ((Hp & Hn & Hu & _) & _ & _ & Hsum).
  unfold analyse_reviews. unfold bind at 1. rewrite Hloop.
  unfold bind at 1.
  rewrite sentiment_summary_ok; try assumption; try reflexivity.
  - rewrite Hp. apply occurrences_nonneg.
  - rewrite Hn. apply occurrences_nonneg.
  - rewrite Hu. pose proof (occurrences_nonneg "neutral" (labels_of (results t))).
    pose proof (occurrences_nonneg "unknown" (labels_of (results t))). lia.
Qed.

(** The two ways [upload_file] can go on a non-empty list of reviews. *)
Lemma analyse_reviews_cases (E : Env) (reviews : list string) (w : World) :
  reviews <> [] ->
  (exists t w',
      review_loop E reviews empty_tally w = (Ok t, w') /\
      analyse_reviews E reviews w =
      (Ok (RenderResults (results t)
                         (summary_of t (Z.of_nat (length reviews)))), w') /\
      (length (posts w) < length (posts w'))%nat) \/
  (exists e w',
      body_error e /\ ~ well_behaved E /\
      analyse_reviews E reviews w = (Raise e, w') /\
      (length (posts w) < length (posts w'))%nat).
Proof.
  intros Hne.
  destruct (review_loop_spec E reviews empty_tally w tallied_empty)
    as (r & w' & Hrun & Hres & Hmono & Htot).
  destruct r as [t | e].
  - left. exists t, w'. split; [exact Hrun |].
    split; [now apply analyse_reviews_completed |].
    destruct reviews as [|review rest]; [congruence |].
    destruct (review_loop_step E review rest empty_tally w)
      as (r & w1 & n & _ & Hn & Hposts & _ & _ & Hr).
    pose proof (posts_grow w _ n _ ltac:(lia) Hposts) as Hgrow.
    destruct r as [d | e]; [| destruct Hr as [_ Hr]; congruence].
    destruct Hr as (r2 & w2 & _ & Hp2 & Hr2).
    destruct r2 as [l | e]; [| destruct Hr2 as [_ Hr2]; congruence].
    destruct Hr2 as [Hvalid Hstep].
    destruct (review_loop_spec E rest (count_label empty_tally review l) w2
                (count_label_tallied _ review l tallied_empty Hvalid))
      as (r' & w'' & Hrun' & _ & Hmono' & _).
    rewrite Hstep, Hrun' in Hrun. injection Hrun as _ <-.
    rewrite Hp2 in Hmono'. lia.
  - right. exists e, w'. destruct Hres as [He Hlt].
    split; [exact He |]. split.
    + intros Hwb. destruct (Htot Hwb) as [t Ht]. discriminate.
    + split; [| exact Hlt].
      unfold analyse_reviews. unfold bind at 1. now rewrite Hrun.
Qed.

(** A property of every page of results, and the page itself against a
    network that keeps to the documented interface. *)
Lemma analyse_reviews_both (E : Env) (reviews : list string) (w : World)
    (Q : Tally -> dict pyfloat -> Prop) :
  reviews <> [] ->
  (forall t w',
      review_loop E reviews empty_tally w = (Ok t, w') ->
      Q t (summary_of t (Z.of_nat (length reviews)))) ->
  (forall resp w',
      analyse_reviews E reviews w = (Ok resp, w') ->
      exists t summary,
        resp = RenderResults (results t) summary /\ Q t summary) /\
  (well_behaved E ->
   exists t summary w',
     analyse_reviews E reviews w
       = (Ok (RenderResults (results t) summary), w') /\
     Q t summary).
Proof.
  intros Hne HQ.
  destruct (analyse_reviews_cases E reviews w Hne)
    as [(t & w1 & Hloop & Hrun & _) | (e & w1 & _ & Hnot & Hrun & _)].
  - split.
    + intros resp w' H. rewrite Hrun in H. injection H as <- <-.
      exists t. eexists. split; [reflexivity | now apply (HQ t w1)].
    + intros _. exists t. eexists. exists w1.
      split; [exact Hrun | now apply (HQ t w1)].
  - split.
    + intros resp w' H. rewrite Hrun in H. discriminate.
    + intros Hwb. contradiction.
Qed.

Lemma ratios_sum (a1 a2 a3 b : Z) :
  0 < b -> a1 + a2 + a3 = b ->
  (inject_Z a1 / inject_Z b + inject_Z a2 / inject_Z b
   + inject_Z a3 / inject_Z b == 1)%Q.
Proof.
  intros Hb Hsum.
  assert (HB : ~ (inject_Z b == 0)%Q).
  { apply Qnot_eq_sym, Qlt_not_eq. change 0%Q with (inject_Z 0).
    now rewrite <- Zlt_Qlt. }
  assert (Heq : (inject_Z a1 / inject_Z b + inject_Z a2 / inject_Z b
                 + inject_Z a3 / inject_Z b
                 == (inject_Z a1 + inject_Z a2 + inject_Z a3) / inject_Z b)%Q)
    by (field; exact HB).
  rewrite Heq, <- !inject_Z_plus, Hsum. field. exact HB.
Qed.

(* ================================================================== *)
(** ** The summary *)

(** C1, as the code has it: when ingestion yields no review the loop
    body never runs, [total_reviews] is 0, and the first division raises
    [ZeroDivisionError]; nothing is rendered and nothing is logged. *)
Theorem empty_reviews_divide_by_zero (E : Env) (request : FlaskRequest)
    (file : FileStorage) (w : World) :
  method request = "POST" ->
  dict_lookup "file" (files request) = Some file ->
  allowed_file (filename file) = Ok true ->
  process_file E file = Ok (Some [], None) ->
  analyse_reviews E [] w = (Raise ZeroDivisionError, w) /\
  upload_file E request w = (Raise ZeroDivisionError, w).
Proof.
  intros Hm Hf Hal Hp. split; [reflexivity |].
  unfold upload_file. rewrite Hm, Hf. cbn [String.eqb Ascii.eqb].
  rewrite (allowed_name_not_empty _ Hal). run_monad.
  rewrite Hal, Hp. reflexivity.
Qed.

Lemma empty_reviews_divide_by_zero_witness :
  analyse_reviews (sample_env blank_reviews keyword_network []) [] []
    = (Raise ZeroDivisionError, []) /\
  upload_file (sample_env blank_reviews keyword_network [])
              (upload_of "reviews.xlsx") []
    = (Raise ZeroDivisionError, []).
Proof.
  apply (empty_reviews_divide_by_zero
           (sample_env blank_reviews keyword_network [])
           (upload_of "reviews.xlsx")
           {| filename := "reviews.xlsx"; stream := "" |} []);
    reflexivity.
Defined.

(** C1 as stated fails: a file whose [Review] column is blank is
    ingested as the empty list, and the handler ends in
    [ZeroDivisionError] instead of a summary. *)
Lemma blank_column_crashes :
  process_file (sample_env blank_reviews keyword_network [])
               {| filename := "reviews.csv"; stream := "" |}
    = Ok (Some [], None) /\
  fst (upload_file (sample_env blank_reviews keyword_network [])
                   (upload_of "reviews.csv") [])
    = Raise ZeroDivisionError /\
  ~ (exists results summary w,
       upload_file (sample_env blank_reviews keyword_network [])
                   (upload_of "reviews.csv") []
       = (Ok (RenderResults results summary), w)).
Proof.
  split; [reflexivity |]. split; [reflexivity |].
  intros (results & summary & w & H). vm_compute in H. discriminate.
Qed.

(** The three shares of a completed loop. *)
Lemma completed_loop_reports (E : Env) (reviews : list string)
    (w w' : World) (t : Tally) :
  reviews <> [] ->
  review_loop E reviews empty_tally w = (Ok t, w') ->
  let labels := labels_of (results t) in
  let total := Z.of_nat (length reviews) in
  let pos := occurrences "positive" labels in
  let neg := occurrences "negative" labels in
  let neu := occurrences "neutral" labels + occurrences "unknown" labels in
  length labels = length reviews /\
  positive_count t = pos /\ negative_count t = neg /\
  neutral_count t = neu /\
  0 < total /\
  0 <= pos <= total /\ 0 <= neg <= total /\ 0 <= neu <= total /\
  pos + neg + neu = total.
Proof.
  intros Hne Hloop. cbv zeta.
  destruct (completed_loop E reviews w w' t Hloop)
    as ((Hp & Hn & Hu & _) & _ & Hlen & Hsum).
  pose proof (occurrences_nonneg "positive" (labels_of (results t))) as Hp0.
  pose proof (occurrences_nonneg "negative" (labels_of (results t))) as Hn0.
  pose proof (occurrences_nonneg "neutral" (labels_of (results t))) as Hu0.
  pose proof (occurrences_nonneg "unknown" (labels_of (results t))) as Hu1.
  assert (HN : 0 < Z.of_nat (length reviews)).
  { destruct reviews; [congruence | simpl; lia]. }
  unfold labels_of at 1. rewrite length_map.
  repeat split; try assumption; lia.
Qed.

(** The statement of C5 about one page of results. *)
Lemma summary_reports (E : Env) (reviews : list string) (w w' : World)
    (t : Tally) :
  reviews <> [] ->
  review_loop E reviews empty_tally w = (Ok t, w') ->
  let summary := summary_of t (Z.of_nat (length reviews)) in
  let labels := labels_of (results t) in
  let total := Z.of_nat (length reviews) in
  let pos := occurrences "positive" labels in
  let neg := occurrences "negative" labels in
  let neu := occurrences "neutral" labels + occurrences "unknown" labels in
  length labels = length reviews /\
  dict_keys summary = ["positive"; "negative"; "neutral"] /\
  reports labels total summary /\
  summary = [("positive", py_round (nearest pos total) 2);
             ("negative", py_round (nearest neg total) 2);
             ("neutral", py_round (nearest neu total) 2)] /\
  int_truediv pos total = Ok (nearest pos total) /\
  int_truediv neg total = Ok (nearest neg total) /\
  int_truediv neu total = Ok (nearest neu total) /\
  forall bucket count,
    In (bucket, count) [("positive", pos); ("negative", neg);
                        ("neutral", neu)] ->
    exists v,
      dict_lookup bucket summary = Some v /\
      rounded_share count total v /\
      (- (1 # 200) - (2 # 2 ^ 53)
         <= F2Q v - inject_Z count / inject_Z total)%Q /\
      (F2Q v - inject_Z count / inject_Z total
         <= (1 # 200) + (2 # 2 ^ 53))%Q.
Proof.
  intros Hne Hloop. cbv zeta.
  destruct (completed_loop_reports E reviews w w' t Hne Hloop)
    as (Hlen & Hp & Hn & Hu & HN & Hp0 & Hn0 & Hu0 & _).
  unfold summary_of. rewrite Hp, Hn, Hu.
  split; [exact Hlen |]. split; [reflexivity |].
  split.
  { eexists _, _, _. split; [reflexivity |].
    repeat split; apply rounded_share_of; assumption. }
  split; [reflexivity |].
  split; [apply int_truediv_ok; lia |].
  split; [apply int_truediv_ok; lia |].
  split; [apply int_truediv_ok; lia |].
  intros bucket count Hin.
  set (total := Z.of_nat (length reviews)) in *.
  assert (Hc : exists v,
             dict_lookup bucket
               [("positive",
                 py_round (nearest (occurrences "positive"
                                      (labels_of (results t))) total) 2);
                ("negative",
                 py_round (nearest (occurrences "negative"
                                      (labels_of (results t))) total) 2);
                ("neutral",
                 py_round (nearest (occurrences "neutral"
                                      (labels_of (results t))
                                    + occurrences "unknown"
                                        (labels_of (results t))) total) 2)]
             = Some v /\
             v = py_round (nearest count total) 2 /\
             0 <= count <= total).
  { destruct Hin as [H | [H | [H | []]]]; injection H as <- <-;
      eexists; (split; [reflexivity |]); (split; [reflexivity | lia]). }
  destruct Hc as (v & Hlook & -> & Hcount).
  exists (py_round (nearest count total) 2).
  split; [exact Hlook |].
  split; [now apply rounded_share_of |].
  destruct (proportion_error count total Hcount HN)
    as (k & _ & Hk100 & Hklo & Hkhi & Hwlo & Hwhi).
  change (2 ^ 53)%positive with 9007199254740992%positive in *.
  assert (Hdiv : (inject_Z k / 100 == inject_Z k * (1 # 100))%Q) by reflexivity.
  rewrite Hdiv in Hwlo, Hwhi.
  split; lra.
Qed.

(** C5: a summary has exactly the keys [positive], [negative],
    [neutral].  The [positive] and [negative] values come from the numbers
    of those labels, the [neutral] value from the number of [neutral] and
    [unknown] labels together.  Each value is the count divided by the
    number of reviews and rounded to two decimals: the float nearest to
    [k / 100] for the whole number [k] nearest to [100 * count / total],
    hence within half a hundredth of the quotient (and two rounding errors
    of [2^-53]).  This holds of every page of results the handler renders
    for a non-empty list of reviews, and it renders one whenever the
    network keeps to the documented interface. *)
Theorem summary_proportions (E : Env) (reviews : list string) (w : World) :
  reviews <> [] ->
  let page (t : Tally) (summary : dict pyfloat) :=
    let labels := labels_of (results t) in
    let total := Z.of_nat (length reviews) in
    let pos := occurrences "positive" labels in
    let neg := occurrences "negative" labels in
    let neu := occurrences "neutral" labels + occurrences "unknown" labels in
    length labels = length reviews /\
    dict_keys summary = ["positive"; "negative"; "neutral"] /\
    reports labels total summary /\
    summary = [("positive", py_round (nearest pos total) 2);
               ("negative", py_round (nearest neg total) 2);
               ("neutral", py_round (nearest neu total) 2)] /\
    int_truediv pos total = Ok (nearest pos total) /\
    int_truediv neg total = Ok (nearest neg total) /\
    int_truediv neu total = Ok (nearest neu total) /\
    forall bucket count,
      In (bucket, count) [("positive", pos); ("negative", neg);
                          ("neutral", neu)] ->
      exists v,
        dict_lookup bucket summary = Some v /\
        rounded_share count total v /\
        (- (1 # 200) - (2 # 2 ^ 53)
           <= F2Q v - inject_Z count / inject_Z total)%Q /\
        (F2Q v - inject_Z count / inject_Z total
           <= (1 # 200) + (2 # 2 ^ 53))%Q in
  (forall resp w',
      analyse_reviews E reviews w = (Ok resp, w') ->
      exists t summary,
        resp = RenderResults (results t) summary /\ page t summary) /\
  (well_behaved E ->
   exists t summary w',
     analyse_reviews E reviews w
       = (Ok (RenderResults (results t) summary), w') /\
     page t summary).
Proof.
  intros Hne page.
  apply (analyse_reviews_both E reviews w page Hne).
  intros t w' Hloop. apply (summary_reports E reviews w w' t Hne Hloop).
Qed.

Lemma summary_proportions_witness :
  exists t summary w',
    analyse_reviews (sample_env three_reviews keyword_network [])
                    ["Great product!"; "Terrible experience"; "It was okay"] []
      = (Ok (RenderResults (results t) summary), w') /\
    dict_keys summary = ["positive"; "negative"; "neutral"] /\
    reports (labels_of (results t)) 3 summary.
Proof.
  destruct (proj2 (summary_proportions
                     (sample_env three_reviews keyword_network [])
                     ["Great product!"; "Terrible experience"; "It was okay"]
                     [] ltac:(discriminate))
              (proj1 (sample_networks_well_behaved three_reviews [])))
    as (t & summary & w' & Hrun & _ & Hkeys & Hrep & _).
  exists t, summary, w'. auto.
Defined.

(** The statement of C6 about one page of results. *)
Lemma summary_sums_to_one (E : Env) (reviews : list string) (w w' : World)
    (t : Tally) :
  reviews <> [] ->
  review_loop E reviews empty_tally w = (Ok t, w') ->
  exists p n u,
    summary_of t (Z.of_nat (length reviews))
      = [("positive", p); ("negative", n); ("neutral", u)] /\
    (97 # 100 <= F2Q p + F2Q n + F2Q u)%Q /\
    (F2Q p + F2Q n + F2Q u <= 103 # 100)%Q.
Proof.
  intros Hne Hloop.
  destruct (completed_loop_reports E reviews w w' t Hne Hloop)
    as (_ & Hp & Hn & Hu & HN & Hp0 & Hn0 & Hu0 & Hsum).
  rewrite <- Hp, <- Hn, <- Hu in *.
  eexists _, _, _. split; [reflexivity |].
  set (N := Z.of_nat (length reviews)) in *.
  destruct (proportion_error (positive_count t) N Hp0 HN)
    as (k1 & _ & _ & Hk1lo & Hk1hi & Hw1lo & Hw1hi).
  destruct (proportion_error (negative_count t) N Hn0 HN)
    as (k2 & _ & _ & Hk2lo & Hk2hi & Hw2lo & Hw2hi).
  destruct (proportion_error (neutral_count t) N Hu0 HN)
    as (k3 & _ & _ & Hk3lo & Hk3hi & Hw3lo & Hw3hi).
  pose proof (ratios_sum _ _ _ N HN Hsum) as Hratio.
  change (2 ^ 53)%positive with 9007199254740992%positive in *.
  assert (Hd1 : (inject_Z k1 / 100 == inject_Z k1 * (1 # 100))%Q) by reflexivity.
  assert (Hd2 : (inject_Z k2 / 100 == inject_Z k2 * (1 # 100))%Q) by reflexivity.
  assert (Hd3 : (inject_Z k3 / 100 == inject_Z k3 * (1 # 100))%Q) by reflexivity.
  rewrite Hd1 in Hw1lo, Hw1hi. rewrite Hd2 in Hw2lo, Hw2hi.
  rewrite Hd3 in Hw3lo, Hw3hi.
  split; lra.
Qed.

(** C6: for at least one review the three reported proportions add up
    to 1 within 0.03 (in fact within 0.015 and six rounding errors): of
    every page of results the handler renders, and it renders one
    whenever the network keeps to the documented interface. *)
Theorem proportions_sum_to_one (E : Env) (reviews : list string)
    (w : World) :
  (0 < length reviews)%nat ->
  (forall resp w',
      analyse_reviews E reviews w = (Ok resp, w') ->
      exists results p n u,
        resp = RenderResults results
                 [("positive", p); ("negative", n); ("neutral", u)] /\
        (97 # 100 <= F2Q p + F2Q n + F2Q u)%Q /\
        (F2Q p + F2Q n + F2Q u <= 103 # 100)%Q) /\
  (well_behaved E ->
   exists results p n u w',
     analyse_reviews E reviews w
       = (Ok (RenderResults results
                [("positive", p); ("negative", n); ("neutral", u)]), w') /\
     (97 # 100 <= F2Q p + F2Q n + F2Q u)%Q /\
     (F2Q p + F2Q n + F2Q u <= 103 # 100)%Q).
Proof.
  intros Hlen.
  assert (Hne : reviews <> [])
    by (destruct reviews; [simpl in Hlen; lia | discriminate]).
  destruct (analyse_reviews_both E reviews w
              (fun _ summary =>
                 exists p n u,
                   summary = [("positive", p); ("negative", n);
                              ("neutral", u)] /\
                   (97 # 100 <= F2Q p + F2Q n + F2Q u)%Q /\
                   (F2Q p + F2Q n + F2Q u <= 103 # 100)%Q) Hne)
    as [Hall Hwb].
  { intros t w' Hloop. apply (summary_sums_to_one E reviews w w' t Hne Hloop). }
  split.
  - intros resp w' Hrun.
    destruct (Hall resp w' Hrun) as (t & summary & -> & p & n & u & -> & H).
    exists (results t), p, n, u. split; [reflexivity | exact H].
  - intros Hw.
    destruct (Hwb Hw) as (t & summary & w' & Hrun & p & n & u & -> & H).
    exists (results t), p, n, u, w'. split; [exact Hrun | exact H].
Qed.

Lemma proportions_sum_to_one_witness :
  exists results p n u w',
    analyse_reviews (sample_env three_reviews busy_network [])
                    ["Great product!"; "It was okay"] []
      = (Ok (RenderResults results
               [("positive", p); ("negative", n); ("neutral", u)]), w') /\
    (97 # 100 <= F2Q p + F2Q n + F2Q u)%Q /\
    (F2Q p + F2Q n + F2Q u <= 103 # 100)%Q.
Proof.
  apply (proj2 (proportions_sum_to_one
                  (sample_env three_reviews busy_network [])
                  ["Great product!"; "It was okay"] []
                  ltac:(simpl; lia))).
  apply sample_networks_well_behaved.
Defined.

(* ================================================================== *)
(** ** The scenarios of the specification *)

(** Scenario 1: three reviews answered with the three words give the
    labels in order and one third, rounded to 0.33, in each bucket. *)
Example scenario_three_labels :
  upload_file (sample_env three_reviews keyword_network
                          [("GROQ_API_KEY", "gsk_test")])
              (upload_of "reviews.csv") []
  = (Ok (RenderResults
           [[("review", "Great product!"); ("sentiment", "positive")];
            [("review", "Terrible experience"); ("sentiment", "negative")];
            [("review", "It was okay"); ("sentiment", "neutral")]]
           [("positive", nearest 33 100); ("negative", nearest 33 100);
            ("neutral", nearest 33 100)]),
     map (fun r => EvPost
            (build_request (sample_env three_reviews keyword_network
                                       [("GROQ_API_KEY", "gsk_test")]) r))
         ["Great product!"; "Terrible experience"; "It was okay"]).
Proof. vm_compute. reflexivity. Qed.

(** Scenario 2: an API that always answers 429 leaves every review
    [unknown], counted in the neutral bucket, after sleeps of 1, 2 and 4
    seconds for each review. *)
Example scenario_rate_limited :
  let run := upload_file (sample_env three_reviews busy_network [])
                         (upload_of "reviews.xlsx") [] in
  fst run
  = Ok (RenderResults
          [[("review", "Great product!"); ("sentiment", "unknown")];
           [("review", "Terrible experience"); ("sentiment", "unknown")];
           [("review", "It was okay"); ("sentiment", "unknown")]]
          [("positive", Float 0 0); ("negative", Float 0 0);
           ("neutral", nearest 1 1)]) /\
  sleeps (snd run) = [1; 2; 4; 1; 2; 4; 1; 2; 4] /\
  length (posts (snd run)) = 9%nat /\
  flashes (snd run)
  = repeat
      "Error analyzing sentiment for review: Failed after multiple retries due to rate limiting."
      3.
Proof. vm_compute. repeat split; reflexivity. Qed.

(** A 200 response whose first choice has a null message: the call
    [.get('content', None)] on [None] raises [AttributeError] after the
    one POST; no [except] clause catches it and the handler renders
    nothing. *)
Example scenario_null_message :
  let E := sample_env three_reviews null_message_network [] in
  analyze_sentiment E "Great product!" []
    = (Raise AttributeError, [EvPost (build_request E "Great product!")]) /\
  upload_file E (upload_of "reviews.csv") []
    = (Raise AttributeError, [EvPost (build_request E "Great product!")]) /\
  ~ well_behaved E.
Proof.
  split; [reflexivity |]. split; [reflexivity |].
  intros H. specialize (H [] (build_request
                                (sample_env three_reviews null_message_network [])
                                "")).
  discriminate.
Qed.

(** The division and the rounding agree with IEEE 754 binary64 division
    of the Standard Library on sample counts. *)
Example truediv_is_binary64_division :
  forallb
    (fun ab =>
       match int_truediv (fst ab) (snd ab) with
       | Ok x =>
           SFeqb (to_spec_float x)
                 (SFdiv 53 1024 (binary64_of_Z (fst ab))
                        (binary64_of_Z (snd ab)))
       | Raise _ => false
       end)
    [(1, 3); (2, 3); (1, 200); (1, 8); (5, 7); (7, 7); (0, 5); (33, 100);
     (3, 1); (1000000007, 3); (1, 12345678912345678)]
  = true.
Proof. vm_compute. reflexivity. Qed.

(** [round(1/200, 2)] is 0.01 and [round(1/8, 2)] is 0.12: ties are
    settled on the exact value of the float. *)
Example round_on_the_exact_value :
  scaled_round (nearest 1 200) 2 = 1 /\
  scaled_round (nearest 1 8) 2 = 12 /\
  scaled_round (nearest 3 8) 2 = 38 /\
  py_round (nearest 1 3) 2 = Float 5944751508129055 (-54).
Proof. vm_compute. repeat split; reflexivity. Qed.

(* ================================================================== *)
(** ** Further properties: file names *)

(** X1: [allowed_file] never raises [IndexError], and it accepts a name
    exactly when what follows the last dot is [csv] or [xlsx] in any mix
    of cases; a name without a dot is refused. *)
Theorem allowed_file_accepts_iff (name : string) :
  exists b,
    allowed_file name = Ok b /\
    (b = true <->
     exists ext, has_extension name ext /\
                 (ci_equal ext "csv" \/ ci_equal ext "xlsx")) /\
    (py_contains "." name = false -> b = false).
Proof.
  destruct (allowed_file_total name) as [b Hb]. exists b.
  split; [exact Hb |]. split.
  - rewrite <- allowed_file_iff, Hb. split; congruence.
  - intros Hdot. unfold allowed_file in Hb. rewrite Hdot in Hb. congruence.
Qed.

(** X2: [process_file] picks the CSV reader exactly for the names whose
    extension is [csv] written in lower case; every other name, whatever
    [allowed_file] said of it, goes to the Excel reader. *)
Theorem reader_by_exact_suffix (name ext : string) :
  has_extension name ext ->
  (reader_for name = ReadCsv <-> ext = "csv") /\
  (reader_for name = ReadExcel <-> ext <> "csv").
Proof.
  intros (stem & -> & Hext).
  assert (Hiff : py_endswith (stem ++ "." ++ ext) ".csv" = true <-> ext = "csv").
  { rewrite endswith_iff. split.
    - intros [pre Hpre].
      assert (H1 : split_last "." (stem ++ "." ++ ext) = Some (stem, ext))
        by (apply split_last_some; now split).
      assert (H2 : split_last "." (stem ++ "." ++ ext) = Some (pre, "csv")).
      { rewrite Hpre. apply split_last_some. now split. }
      rewrite H1 in H2. now injection H2 as _ ->.
    - intros ->. now exists stem. }
  unfold reader_for.
  destruct (py_endswith (stem ++ "." ++ ext) ".csv").
  - assert (ext = "csv") by now apply Hiff.
    split; split; intros; congruence.
  - assert (ext <> "csv") by (intros H; apply Hiff in H; discriminate).
    split; split; intros; congruence.
Qed.

Lemma reader_by_exact_suffix_witness :
  (reader_for "q3.reviews.Csv" = ReadCsv <-> "Csv" = "csv") /\
  (reader_for "q3.reviews.Csv" = ReadExcel <-> "Csv" <> "csv").
Proof.
  apply (reader_by_exact_suffix "q3.reviews.Csv" "Csv").
  exists "q3.reviews"%string. split; reflexivity.
Defined.

(* ================================================================== *)
(** ** Further properties: the keyword classifier *)





(* ================================================================== *)
(** ** Further properties: the client *)

(** The whole course of the retry loop over the attempts numbered
    [a, ..., a+n-1]: the first [j] of them are rate limited; the next
    one, if one is left, is not, and settles the call. *)
Lemma attempt_loop_trace (E : Env) (req : Request) (n : nat) :
  forall a w, exists j,
    (j <= n)%nat /\
    (forall i, (i < j)%nat ->
       rate_limited (network E (w ++ retry_events req a i) req) = true) /\
    ((j < n)%nat ->
       rate_limited (network E (w ++ retry_events req a j) req) = false /\
       attempt_loop E req (seq a n) w =
       (settle (network E (w ++ retry_events req a j) req),
        w ++ retry_events req a j ++ [EvPost req])) /\
    (j = n ->
       attempt_loop E req (seq a n) w =
       (Ok (Failure "Failed after multiple retries due to rate limiting."),
        w ++ retry_events req a j)).
Proof.
  induction n as [|n IH]; intros a w.
  - exists 0%nat. split; [lia |]. split; [intros i Hi; lia |].
    split; [lia |]. intros _. unfold retry_events. simpl.
    now rewrite app_nil_r.
  - destruct (rate_limited (network E w req)) eqn:Hrl.
    + destruct (IH (S a) (w ++ [EvPost req; EvSleep (2 ^ Z.of_nat a)]))
        as (j & Hj & Hbefore & Hlt & Heq).
      exists (S j). split; [lia |]. split.
      { intros [|i] Hi.
        - unfold retry_events. simpl. now rewrite app_nil_r.
        - rewrite retry_events_succ, app_assoc. apply Hbefore. lia. }
      cbn [seq]. rewrite attempt_loop_retries by exact Hrl.
      rewrite retry_events_succ, !app_assoc.
      split.
      * intros H. destruct (Hlt ltac:(lia)) as [H1 H2].
        split; [exact H1 |]. rewrite H2. now rewrite !app_assoc.
      * intros H. rewrite Heq by lia. reflexivity.
    + exists 0%nat. split; [lia |]. split; [intros i Hi; lia |].
      unfold retry_events. simpl. rewrite app_nil_r.
      split; [| intros H; lia].
      intros _. split; [exact Hrl |].
      now apply attempt_loop_settles.
Qed.

(** X4: one call of [analyze_sentiment] logs nothing but POSTs and
    sleeps.  Its first [j <= 3] attempts are answered with 429, each
    in the log of the attempts before it, and each is a POST followed by a
    sleep; when [j < 3] the next attempt is not answered with 429 and is
    the closing POST, whose answer settles the call; when [j = 3] the call
    answers with the rate-limiting failure.  The sleeps are the first [j]
    of 1, 2, 4 seconds, at most 7 seconds in all. *)
Theorem backoff_bounded (E : Env) (review : string) (w : World) :
  let req := build_request E review in
  exists r j,
    (j <= 3)%nat /\
    (forall i, (i < j)%nat ->
       rate_limited (network E (w ++ retry_events req 0 i) req) = true) /\
    ((j < 3)%nat ->
       rate_limited (network E (w ++ retry_events req 0 j) req) = false /\
       r = settle (network E (w ++ retry_events req 0 j) req)) /\
    (j = 3%nat ->
       r = Ok (Failure "Failed after multiple retries due to rate limiting.")) /\
    analyze_sentiment E review w =
    (r,
     w ++ retry_events req 0 j
       ++ (if (j <? 3)%nat then [EvPost req] else [])) /\
    sleeps (snd (analyze_sentiment E review w))
      = sleeps w ++ firstn j [1; 2; 4] /\
    fold_right Z.add 0 (firstn j [1; 2; 4]) <= 7 /\
    length (posts (snd (analyze_sentiment E review w)))
      = (length (posts w) + Nat.min (S j) 3)%nat /\
    flashes (snd (analyze_sentiment E review w)) = flashes w.
Proof.
  intros req. unfold analyze_sentiment, retry_attempts. fold req.
  destruct (attempt_loop_trace E req 3 0 w) as (j & Hj & Hbefore & Hlt & Heq).
  assert (Hrun : exists r,
             attempt_loop E req (seq 0 3) w =
             (r, w ++ retry_events req 0 j
                   ++ (if (j <? 3)%nat then [EvPost req] else [])) /\
             ((j < 3)%nat ->
              r = settle (network E (w ++ retry_events req 0 j) req)) /\
             (j = 3%nat ->
              r = Ok (Failure
                        "Failed after multiple retries due to rate limiting."))).
  { destruct (Nat.ltb_spec j 3) as [Hlt3 | Hge3].
    - destruct (Hlt Hlt3) as [_ H]. eexists. split; [exact H |].
      split; [reflexivity | lia].
    - assert (j = 3%nat) by lia. eexists. split.
      + rewrite (Heq ltac:(lia)). now rewrite app_nil_r.
      + split; [lia | reflexivity]. }
  destruct Hrun as (r & Hrun & Hr1 & Hr2).
  exists r, j. split; [exact Hj |]. split; [exact Hbefore |].
  split; [intros H; split; [apply (Hlt H) | apply (Hr1 H)] |].
  split; [exact Hr2 |]. rewrite Hrun. split; [reflexivity |]. cbn [snd].
  assert (Hcases : j = 0%nat \/ j = 1%nat \/ j = 2%nat \/ j = 3%nat) by lia.
  unfold sleeps, posts, flashes.
  destruct Hcases as [-> | [-> | [-> | ->]]];
    rewrite !flat_map_app, !length_app;
    (split; [reflexivity |]); (split; [simpl; lia |]);
    (split; [simpl; lia |]); simpl; now rewrite app_nil_r.
Qed.

(** The bodies that are read as a success. *)
Lemma read_choices_success (r : HttpResponse) (content : pyvalue) :
  read_choices r = Ok [("sentiment", content)] <->
  exists body choice others msg,
    json r = Json (PyDict body) /\
    dict_lookup "choices" body = Some (PyList (PyDict choice :: others)) /\
    dict_get "message" (PyDict []) choice = PyDict msg /\
    dict_lookup "content" msg = Some content /\
    truthy content = true.
Proof.
  split.
  - unfold read_choices.
    destruct (json r) as [details | response_data]; [discriminate |].
    destruct response_data as [| | | | | | |body]; try discriminate.
    cbn [and_then py_get].
    remember (dict_get "choices" PyNone body) as choices eqn:Hc.
    unfold dict_get in Hc.
    destruct (dict_lookup "choices" body) as [value|] eqn:Hchoices;
      subst choices; [| discriminate].
    destruct value as [| [|] | n | [m e] | x | [|c s] | [|first others]
                         | [|item items]];
      cbn [truthy negb and_then py_len py_first py_get String.eqb];
      try discriminate.
    + destruct (n =? 0); cbn [negb and_then]; discriminate.
    + destruct (m =? 0); cbn [negb and_then]; discriminate.
    + change (0 <? Z.of_nat (length (first :: others)))
        with (0 <? Z.pos (Pos.of_succ_nat (length others))).
      cbv iota beta.
      destruct first as [| | | | | | |choice]; cbn [and_then py_get];
        try discriminate.
      destruct (dict_get "message" (PyDict []) choice)
        as [| | | | | | |msg] eqn:Hmsg;
        cbn [and_then py_get]; try discriminate.
      unfold dict_get.
      destruct (dict_lookup "content" msg) as [value|] eqn:Hcontent;
        [| discriminate].
      destruct (truthy value) eqn:Htruthy; [| discriminate].
      intros H. injection H as <-.
      exists body, choice, others, msg. auto.
  - intros (body & choice & others & msg & Hjson & Hchoices & Hmsg & Hcontent
            & Htruthy).
    unfold read_choices. rewrite Hjson. cbn [and_then py_get].
    replace (dict_get "choices" PyNone body)
      with (PyList (PyDict choice :: others))
      by (unfold dict_get; now rewrite Hchoices).
    cbn [truthy and_then py_len py_first py_get].
    change (0 <? Z.of_nat (length (PyDict choice :: others)))
      with (0 <? Z.pos (Pos.of_succ_nat (length others))).
    cbv iota beta. rewrite Hmsg. cbn [and_then py_get].
    unfold dict_get. rewrite Hcontent, Htruthy. reflexivity.
Qed.

(** X5: when the first attempt is not rate limited, the call is that one
    POST and its answer settles the call.  The answer carries a
    [sentiment] exactly when the response is no HTTP error, its body is an
    object whose [choices] is a list, the first of the choices is an
    object whose [message] is an object with a true [content], and the
    [sentiment] is that content; the other choices are never read.  A body
    of the documented shape is answered with a [Success] or a [Failure];
    a first choice whose [message] is null makes the call raise
    [AttributeError]. *)
Theorem success_iff_first_choice (E : Env) (review : string) (w : World) :
  let req := build_request E review in
  rate_limited (network E w req) = false ->
  analyze_sentiment E review w
    = (settle (network E w req), w ++ [EvPost req]) /\
  (forall content,
      settle (network E w req) = Ok [("sentiment", content)] <->
      exists r body choice others msg,
        network E w req = Responded r /\
        raises_for_status r = false /\
        json r = Json (PyDict body) /\
        dict_lookup "choices" body = Some (PyList (PyDict choice :: others)) /\
        dict_get "message" (PyDict []) choice = PyDict msg /\
        dict_lookup "content" msg = Some content /\
        truthy content = true) /\
  (schema_answer (network E w req) = true ->
   exists d, settle (network E w req) = Ok d /\
     ((exists text, d = Success text) \/ (exists reason, d = Failure reason))) /\
  (forall r body others,
      network E w req = Responded r ->
      raises_for_status r = false ->
      json r = Json (PyDict body) ->
      dict_lookup "choices" body
        = Some (PyList (PyDict [("message", PyNone)] :: others)) ->
      settle (network E w req) = Raise AttributeError).
Proof.
  intros req Hrl. split; [| split; [| split]].
  - unfold analyze_sentiment, retry_attempts. cbn [seq].
    now apply attempt_loop_settles.
  - intros content. unfold settle.
    destruct (network E w req) as [details | r].
    { split; [discriminate |].
      intros (r & ? & ? & ? & ? & H & _). discriminate. }
    destruct (raises_for_status r) eqn:Hraise.
    { split; [discriminate |].
      intros (r' & ? & ? & ? & ? & H & Hr & _). injection H as <-.
      congruence. }
    rewrite read_choices_success. split.
    + intros (body & choice & others & msg & H).
      exists r, body, choice, others, msg. tauto.
    + intros (r' & body & choice & others & msg & H & _ & H').
      injection H as <-. exists body, choice, others, msg. exact H'.
  - apply settle_schema.
  - intros r body others Hnet Hraise Hjson Hchoices.
    rewrite Hnet. unfold settle. rewrite Hraise.
    unfold read_choices. rewrite Hjson. cbn [and_then py_get].
    replace (dict_get "choices" PyNone body)
      with (PyList (PyDict [("message", PyNone)] :: others))
      by (unfold dict_get; now rewrite Hchoices).
    reflexivity.
Qed.

Lemma success_iff_first_choice_witness :
  let E := sample_env three_reviews keyword_network [] in
  let req := build_request E "Great product!" in
  analyze_sentiment E "Great product!" []
    = (Ok (Success "The sentiment of this review is Positive."),
       [EvPost req]) /\
  exists r body choice others msg,
    network E [] req = Responded r /\
    raises_for_status r = false /\
    json r = Json (PyDict body) /\
    dict_lookup "choices" body = Some (PyList (PyDict choice :: others)) /\
    dict_get "message" (PyDict []) choice = PyDict msg /\
    dict_lookup "content" msg
      = Some (PyStr "The sentiment of this review is Positive.") /\
    truthy (PyStr "The sentiment of this review is Positive.") = true.
Proof.
  destruct (success_iff_first_choice
              (sample_env three_reviews keyword_network [])
              "Great product!" [] eq_refl) as (Hrun & Hiff & _).
  split; [exact Hrun |].
  apply (proj1 (Hiff (PyStr "The sentiment of this review is Positive."))).
  reflexivity.
Defined.

(* ================================================================== *)
(** ** Further properties: the review loop *)

(** The requests of the loop, review by review, up to the review at
    which it ends. *)
Lemma review_loop_posts (E : Env) (reviews : list string) :
  forall t0 w, exists ns,
    (length ns <= length reviews)%nat /\
    Forall (fun n => (1 <= n <= 3)%nat) ns /\
    posts (snd (review_loop E reviews t0 w)) =
    posts w ++ concat (map (fun rn => repeat (build_request E (fst rn)) (snd rn))
                           (combine reviews ns)) /\
    match fst (review_loop E reviews t0 w) with
    | Ok _ => length ns = length reviews
    | Raise e => body_error e /\ (1 <= length ns)%nat
    end.
Proof.
  induction reviews as [|review rest IH]; intros t0 w.
  - exists []. split; [simpl; lia |]. split; [constructor |].
    split; [simpl; now rewrite app_nil_r | reflexivity].
  - destruct (review_loop_step E review rest t0 w)
      as (r & w1 & n & _ & Hn & Hp1 & _ & _ & Hr).
    destruct r as [d | e].
    + destruct Hr as (r2 & w2 & _ & Hp2 & Hr2).
      destruct r2 as [l | e].
      * destruct Hr2 as [_ Hstep].
        destruct (IH (count_label t0 review l) w2)
          as (ns & Hlen & Hall & Hposts & Hend).
        exists (n :: ns). split; [simpl; lia |].
        split; [now constructor |].
        rewrite Hstep, Hposts, Hp2, Hp1. simpl.
        split; [now rewrite <- app_assoc |].
        destruct (fst (review_loop E rest (count_label t0 review l) w2));
          [lia | split; [apply Hend | lia]].
      * destruct Hr2 as [-> Hstep].
        exists [n]. split; [simpl; lia |].
        split; [constructor; [exact Hn | constructor] |].
        rewrite Hstep. cbn [fst snd]. rewrite Hp2, Hp1.
        destruct rest; simpl; rewrite app_nil_r;
          (split; [reflexivity |]); (split; [unfold body_error; tauto | lia]).
    + destruct Hr as [He Hstep].
      exists [n]. split; [simpl; lia |].
      split; [constructor; [exact Hn | constructor] |].
      rewrite Hstep. cbn [fst snd]. rewrite Hp1.
      destruct rest; simpl; rewrite app_nil_r;
        (split; [reflexivity |]); (split; [exact He | lia]).
Qed.

Lemma posts_per_review_bounds (E : Env) (reviews : list string) :
  forall ns,
    Forall (fun n => (1 <= n <= 3)%nat) ns ->
    (length ns <= length reviews)%nat ->
    (length ns
     <= length (concat (map (fun rn => repeat (build_request E (fst rn)) (snd rn))
                            (combine reviews ns)))
     <= 3 * length ns)%nat.
Proof.
  induction reviews as [|review rest IH]; intros ns Hall Hlen.
  - destruct ns; simpl in *; lia.
  - destruct ns as [|n ns]; [simpl; lia |].
    inversion Hall as [|? ? Hn Hns]; subst.
    simpl in Hlen. specialize (IH ns Hns ltac:(lia)).
    cbn [combine map concat fst snd]. rewrite length_app, repeat_length.
    simpl length. lia.
Qed.

(** X6: the loop posts to the API review by review, in the order of the
    reviews: for each review it reaches, between one and three copies of
    the request built from it, so at most [3 N] requests for [N] reviews.
    A loop that completes has reached every review, and so has posted at
    least [N] requests; it completes whenever the network keeps to the
    documented interface.  The other way out is an exception raised on the
    body of a response, at the review it was posted for. *)
Theorem requests_in_review_order (E : Env) (reviews : list string)
    (w : World) :
  let run := review_loop E reviews empty_tally w in
  exists ns,
    (length ns <= length reviews)%nat /\
    Forall (fun n => (1 <= n <= 3)%nat) ns /\
    posts (snd run) =
    posts w ++ concat (map (fun rn => repeat (build_request E (fst rn)) (snd rn))
                           (combine reviews ns)) /\
    (length (posts w) + length ns
     <= length (posts (snd run))
     <= length (posts w) + 3 * length ns)%nat /\
    (forall t, fst run = Ok t -> length ns = length reviews) /\
    (forall e, fst run = Raise e -> body_error e /\ (1 <= length ns)%nat) /\
    (well_behaved E -> length ns = length reviews).
Proof.
  intros run. unfold run.
  destruct (review_loop_posts E reviews empty_tally w)
    as (ns & Hlen & Hall & Hposts & Hend).
  exists ns. split; [exact Hlen |]. split; [exact Hall |].
  split; [exact Hposts |]. split.
  { rewrite Hposts, length_app.
    pose proof (posts_per_review_bounds E reviews ns Hall Hlen). lia. }
  destruct (review_loop_spec E reviews empty_tally w tallied_empty)
    as (r & w' & Hrun & _ & _ & Htot).
  rewrite Hrun in *. cbn [fst] in *.
  split; [intros t ->; exact Hend |].
  split; [intros e ->; exact Hend |].
  intros Hwb. destruct (Htot Hwb) as [t ->]. exact Hend.
Qed.

(** A loop that completes has gone the course that [reviewed]
    describes. *)
Lemma review_loop_reviewed (E : Env) (reviews : list string) :
  forall t0 w t w',
    review_loop E reviews t0 w = (Ok t, w') ->
    exists entries,
      results t = results t0 ++ entries /\ reviewed E w reviews entries w'.
Proof.
  induction reviews as [|review rest IH]; intros t0 w t w' Hloop.
  - injection Hloop as <- <-. exists []. split; [now rewrite app_nil_r |].
    constructor.
  - destruct (attempt_loop_total E (build_request E review)
                (seq 0 retry_attempts) w)
      as (r & w1 & n & Hrun & _ & _ & _ & _ & Hr & _).
    fold (analyze_sentiment E review) in Hrun.
    cbn [review_loop] in Hloop. unfold bind at 1 in Hloop.
    rewrite Hrun in Hloop.
    destruct r as [d | e]; [| discriminate].
    unfold bind at 1 in Hloop.
    destruct Hr as [(content & -> & _) | (reason & ->)].
    + change (label_of E [("sentiment", content)] w1)
        with (classify_sentiment content, w1) in Hloop.
      pose proof (classify_sentiment_valid content) as Hc.
      destruct (classify_sentiment content) as [label | e] eqn:Hlabel;
        [| discriminate].
      destruct Hc as (_ & _ & text & ->).
      destruct (IH _ _ _ _ Hloop) as (entries & Hres & Hrev).
      exists ([("review", review); ("sentiment", label)] :: entries).
      split.
      * rewrite Hres, count_label_results, <- app_assoc. reflexivity.
      * now apply (reviewed_success E w review text w1 label).
    + rewrite label_of_failure in Hloop.
      destruct (IH _ _ _ _ Hloop) as (entries & Hres & Hrev).
      exists ([("review", review); ("sentiment", "unknown")] :: entries).
      split.
      * rewrite Hres, count_label_results, <- app_assoc. reflexivity.
      * now apply (reviewed_failure E w review reason w1).
Qed.

(** Along such a course the messages flashed are those of the failures,
    one for each entry labelled [unknown]. *)
Lemma reviewed_flashes (E : Env) (w w' : World) (reviews : list string)
    (entries : list (dict string)) :
  reviewed E w reviews entries w' ->
  exists reasons,
    flashes w' =
      flashes w
      ++ map (String.append "Error analyzing sentiment for review: ") reasons /\
    occurrences "unknown" (labels_of entries) = Z.of_nat (length reasons).
Proof.
  induction 1 as [w | w review text w1 label rest entries w' Hrun Hlabel _ IH
                  | w review reason w1 rest entries w' Hrun _ IH].
  - exists []. simpl. split; [now rewrite app_nil_r | reflexivity].
  - destruct IH as (reasons & Hfl & Hocc).
    destruct (attempt_loop_total E (build_request E review)
                (seq 0 retry_attempts) w)
      as (r & w2 & n & Hrun' & _ & _ & _ & Hfl1 & _).
    fold (analyze_sentiment E review) in Hrun'.
    rewrite Hrun in Hrun'. injection Hrun' as <- <-.
    exists reasons. split; [now rewrite Hfl, Hfl1 |].
    change (labels_of ([("review", review); ("sentiment", label)] :: entries))
      with ([label] ++ labels_of entries).
    rewrite occurrences_app, occurrences_single, Hocc.
    rewrite classify_sentiment_str in Hlabel. injection Hlabel as <-.
    destruct (keyword_of_valid (py_lower text)) as [_ Hne].
    apply String.eqb_neq in Hne. now rewrite Hne.
  - destruct IH as (reasons & Hfl & Hocc).
    destruct (attempt_loop_total E (build_request E review)
                (seq 0 retry_attempts) w)
      as (r & w2 & n & Hrun' & _ & _ & _ & Hfl1 & _).
    fold (analyze_sentiment E review) in Hrun'.
    rewrite Hrun in Hrun'. injection Hrun' as <- <-.
    exists (reason :: reasons). split.
    + rewrite Hfl. unfold flashes at 1. rewrite flat_map_app.
      fold (flashes w1). rewrite Hfl1. simpl. now rewrite <- app_assoc.
    + change (labels_of ([("review", review); ("sentiment", "unknown")]
                           :: entries))
        with (["unknown"] ++ labels_of entries)%list.
      rewrite occurrences_app, occurrences_single, Hocc.
      cbn -[Z.add Z.of_nat]. lia.
Qed.

(** X7: no failure of the API is dropped and none is reported twice.  A
    loop that completes has taken the reviews in order; each review whose
    call answered with a failure is labelled [unknown] and "Error
    analyzing sentiment for review: " followed by the reason of that very
    answer is flashed right after the call; each other review is labelled
    by the text of its answer and nothing is flashed for it.  So the
    messages flashed are as many as the results labelled [unknown].  The
    loop completes whenever the network keeps to the documented
    interface. *)
Theorem failures_flashed_once (E : Env) (reviews : list string) (w : World) :
  (forall t w',
      review_loop E reviews empty_tally w = (Ok t, w') ->
      reviewed E w reviews (results t) w' /\
      exists reasons,
        flashes w' =
          flashes w
          ++ map (String.append "Error analyzing sentiment for review: ")
                 reasons /\
        occurrences "unknown" (labels_of (results t))
          = Z.of_nat (length reasons)) /\
  (well_behaved E ->
   exists t w', review_loop E reviews empty_tally w = (Ok t, w')).
Proof.
  split.
  - intros t w' Hloop.
    destruct (review_loop_reviewed E reviews empty_tally w t w' Hloop)
      as (entries & Hres & Hrev).
    simpl in Hres. subst entries.
    split; [exact Hrev | exact (reviewed_flashes E w w' reviews _ Hrev)].
  - intros Hwb.
    destruct (review_loop_spec E reviews empty_tally w tallied_empty)
      as (r & w' & Hrun & _ & _ & Htot).
    destruct (Htot Hwb) as [t ->]. eauto.
Qed.

Lemma failures_flashed_once_witness :
  exists t w',
    review_loop (sample_env three_reviews flaky_network [])
                ["Great product!"; "It was okay"] empty_tally []
      = (Ok t, w') /\
    reviewed (sample_env three_reviews flaky_network []) []
             ["Great product!"; "It was okay"] (results t) w'.
Proof.
  destruct (failures_flashed_once
              (sample_env three_reviews flaky_network [])
              ["Great product!"; "It was okay"] []) as [Hall Hwb].
  destruct (Hwb (proj2 (proj2 (sample_networks_well_behaved three_reviews []))))
    as (t & w' & Hloop).
  exists t, w'. split; [exact Hloop | apply (Hall t w' Hloop)].
Defined.

(* ================================================================== *)
(** ** Further properties: the handler *)

(** What [upload_file] does with a file that passed [allowed_file]. *)
Lemma upload_accepted (E : Env) (request : FlaskRequest)
    (file : FileStorage) (w : World) :
  method request = "POST" ->
  dict_lookup "file" (files request) = Some file ->
  allowed_file (filename file) = Ok true ->
  upload_file E request w =
  match process_file E file with
  | Raise e => (Raise e, w)
  | Ok (_, Some (String c msg)) =>
      (Ok (Redirect (url request)), w ++ [EvFlash (String c msg)])
  | Ok (Some reviews, _) => analyse_reviews E reviews w
  | Ok (None, _) => (Raise TypeError, w)
  end.
Proof.
  intros Hm Hf Hal. unfold upload_file. rewrite Hm, Hf.
  cbn [String.eqb Ascii.eqb].
  rewrite (allowed_name_not_empty _ Hal). run_monad. rewrite Hal.
  destruct (process_file E file) as [[[reviews|] [[|c msg]|]]|e]; reflexivity.
Qed.

(** [process_file] answers with reviews or with a message, never both. *)
Lemma process_file_shape (E : Env) (file : FileStorage) :
  (exists e, process_file E file = Raise e /\
             run_reader E (reader_for (filename file)) file = Raise e) \/
  (exists reviews, process_file E file = Ok (Some reviews, None)) \/
  process_file E file = Ok (None, Some "Missing 'Review' column in file.").
Proof.
  unfold process_file.
  destruct (run_reader E (reader_for (filename file)) file) as [df|e].
  - destruct (dict_lookup "Review" df); eauto.
  - left. eauto.
Qed.

(** X8: when the reader chosen for an accepted file raises, the
    exception leaves [upload_file] as it is: nothing is flashed, nothing
    is posted, nothing is rendered. *)
Theorem reader_failure_aborts (E : Env) (request : FlaskRequest)
    (file : FileStorage) (e : exn) (w : World) :
  method request = "POST" ->
  dict_lookup "file" (files request) = Some file ->
  allowed_file (filename file) = Ok true ->
  run_reader E (reader_for (filename file)) file = Raise e ->
  process_file E file = Raise e /\
  upload_file E request w = (Raise e, w).
Proof.
  intros Hm Hf Hal Hread.
  assert (Hp : process_file E file = Raise e)
    by (unfold process_file; now rewrite Hread).
  split; [exact Hp |].
  rewrite (upload_accepted E request file w Hm Hf Hal). now rewrite Hp.
Qed.

Lemma reader_failure_aborts_witness :
  process_file unreadable_env {| filename := "notes.CSV"; stream := "" |}
    = Raise (ParserError "File is not a zip file") /\
  upload_file unreadable_env (upload_of "notes.CSV") []
    = (Raise (ParserError "File is not a zip file"), []).
Proof.
  apply (reader_failure_aborts unreadable_env (upload_of "notes.CSV")
           {| filename := "notes.CSV"; stream := "" |}
           (ParserError "File is not a zip file") []); reflexivity.
Defined.

(** X9: ingestion and the loop composed.  For an accepted file whose
    table has a [Review] column with at least one non-empty cell, every
    page of results the handler renders has one result per non-empty
    cell, in row order, and a summary with the three keys; the handler
    renders one whenever the network keeps to the documented
    interface. *)
Theorem upload_renders_column_in_order (E : Env) (request : FlaskRequest)
    (file : FileStorage) (df : DataFrame) (col : list (option string))
    (w : World) :
  method request = "POST" ->
  dict_lookup "file" (files request) = Some file ->
  allowed_file (filename file) = Ok true ->
  run_reader E (reader_for (filename file)) file = Ok df ->
  dict_lookup "Review" df = Some col ->
  existsb is_some col = true ->
  let page (results : list (dict string)) (summary : dict pyfloat) :=
    map Some (reviews_of results) = filter is_some col /\
    length results = length (filter is_some col) /\
    Forall valid_label (labels_of results) /\
    dict_keys summary = ["positive"; "negative"; "neutral"] in
  (forall resp w',
      upload_file E request w = (Ok resp, w') ->
      exists results summary,
        resp = RenderResults results summary /\ page results summary) /\
  (well_behaved E ->
   exists results summary w',
     upload_file E request w = (Ok (RenderResults results summary), w') /\
     page results summary).
Proof.
  intros Hm Hf Hal Hread Hcol Hsome page.
  assert (Hp : process_file E file = Ok (Some (dropna_tolist col), None))
    by (unfold process_file; now rewrite Hread, Hcol).
  assert (Hne : dropna_tolist col <> []).
  { intros Hnil. pose proof (dropna_tolist_filter col) as Hfil.
    rewrite Hnil in Hfil. simpl in Hfil.
    apply existsb_exists in Hsome as (c & Hin & Hc).
    assert (Hin' : In c (filter is_some col)) by (apply filter_In; now split).
    rewrite <- Hfil in Hin'. contradiction. }
  rewrite (upload_accepted E request file w Hm Hf Hal), Hp.
  destruct (analyse_reviews_both E (dropna_tolist col) w
              (fun t summary => page (results t) summary) Hne)
    as [Hall Hwb].
  { intros t w' Hloop.
    destruct (completed_loop E _ w w' t Hloop)
      as ((_ & _ & _ & Hv & _) & Hrev & Hlen & _).
    unfold page. rewrite Hrev, dropna_tolist_filter.
    split; [reflexivity |]. split.
    - now rewrite <- dropna_tolist_filter, length_map.
    - split; [exact Hv | reflexivity]. }
  split.
  - intros resp w' H.
    destruct (Hall resp w' H) as (t & summary & -> & HQ).
    exists (results t), summary. split; [reflexivity | exact HQ].
  - intros Hw.
    destruct (Hwb Hw) as (t & summary & w' & Hrun & HQ).
    exists (results t), summary, w'. split; [exact Hrun | exact HQ].
Qed.

Lemma upload_renders_column_in_order_witness :
  exists results summary w',
    upload_file (sample_env three_reviews flaky_network [])
                (upload_of "march.xlsx") []
      = (Ok (RenderResults results summary), w') /\
    map Some (reviews_of results)
      = filter is_some [Some "Great product!"; None;
                        Some "Terrible experience"; Some "It was okay"] /\
    length results
      = length (filter is_some [Some "Great product!"; None;
                                Some "Terrible experience";
                                Some "It was okay"]) /\
    Forall valid_label (labels_of results) /\
    dict_keys summary = ["positive"; "negative"; "neutral"].
Proof.
  apply (proj2 (upload_renders_column_in_order
                  (sample_env three_reviews flaky_network [])
                  (upload_of "march.xlsx")
                  {| filename := "march.xlsx"; stream := "" |}
                  three_reviews
                  [Some "Great product!"; None;
                   Some "Terrible experience"; Some "It was okay"] []
                  eq_refl eq_refl eq_refl eq_refl eq_refl eq_refl)).
  apply sample_networks_well_behaved.
Defined.

Lemma posts_flash (w : World) (msg : string) :
  posts (w ++ [EvFlash msg]) = posts w.
Proof. unfold posts. rewrite flat_map_app. simpl. apply app_nil_r. Qed.

(** Every way through [upload_file]. *)
Lemma upload_cases (E : Env) (request : FlaskRequest) (w : World) :
  (method request <> "POST" /\ upload_file E request w = (Ok RenderIndex, w)) \/
  (method request = "POST" /\
   exists msg, In msg redirect_messages /\
     upload_file E request w
       = (Ok (Redirect (url request)), w ++ [EvFlash msg])) \/
  (method request = "POST" /\
   exists file e,
     dict_lookup "file" (files request) = Some file /\
     allowed_file (filename file) = Ok true /\
     upload_file E request w = (Raise e, w) /\
     (run_reader E (reader_for (filename file)) file = Raise e \/
      (process_file E file = Ok (Some [], None) /\ e = ZeroDivisionError))) \/
  (method request = "POST" /\
   exists file reviews,
     dict_lookup "file" (files request) = Some file /\
     allowed_file (filename file) = Ok true /\
     process_file E file = Ok (Some reviews, None) /\
     reviews <> [] /\
     upload_file E request w = analyse_reviews E reviews w).
Proof.
  destruct (String.eqb (method request) "POST") eqn:Hm.
  2: { left. split; [now apply String.eqb_neq |].
       unfold upload_file. now rewrite Hm. }
  apply String.eqb_eq in Hm. right.
  destruct (dict_lookup "file" (files request)) as [file|] eqn:Hf.
  2: { left. split; [exact Hm |]. exists "No file part"%string.
       split; [simpl; tauto |].
       unfold upload_file. rewrite Hm, Hf. reflexivity. }
  destruct (String.eqb (filename file) "") eqn:Hname.
  { left. split; [exact Hm |]. exists "No selected file"%string.
    split; [simpl; tauto |].
    unfold upload_file. rewrite Hm, Hf. cbn [String.eqb Ascii.eqb].
    rewrite Hname. reflexivity. }
  destruct (allowed_file_total (filename file)) as [[|] Hal].
  2: { left. split; [exact Hm |].
       exists "Allowed file types are CSV, XLSX"%string.
       split; [simpl; tauto |].
       unfold upload_file. rewrite Hm, Hf. cbn [String.eqb Ascii.eqb].
       rewrite Hname. run_monad. rewrite Hal. reflexivity. }
  pose proof (upload_accepted E request file w Hm Hf Hal) as Hup.
  destruct (process_file_shape E file)
    as [(e & Hp & Hread) | [(reviews & Hp) | Hp]]; rewrite Hp in Hup.
  - right; left. split; [exact Hm |]. exists file, e. tauto.
  - destruct reviews as [|review rest].
    + right; left. split; [exact Hm |]. exists file, ZeroDivisionError.
      repeat (split; [first [assumption | reflexivity] |]). now right.
    + right; right. split; [exact Hm |]. exists file, (review :: rest).
      repeat (split; [first [assumption | reflexivity] |]). split; [discriminate | exact Hup].
  - left. split; [exact Hm |].
    exists "Missing 'Review' column in file."%string.
    split; [simpl; tauto | exact Hup].
Qed.

(** X10: the outcomes of [upload_file].  A request that is not a POST
    gets the index page and logs nothing.  A POST ends in one of four
    ways: a redirect to [request.url] after exactly one flash, one of four
    fixed messages, and no request to the API; an exception before
    anything is logged, which is what the pandas reader raised or the
    [ZeroDivisionError] of an empty review list; the results page, with
    one result per review and at least one request to the API; or, after
    at least one request to the API, the [AttributeError], [TypeError] or
    [KeyError] raised on a response body that is not of the documented
    shape. *)
Theorem upload_outcomes (E : Env) (request : FlaskRequest) (w : World) :
  (method request <> "POST" /\ upload_file E request w = (Ok RenderIndex, w)) \/
  (method request = "POST" /\
   exists msg, In msg redirect_messages /\
     upload_file E request w
       = (Ok (Redirect (url request)), w ++ [EvFlash msg]) /\
     posts (w ++ [EvFlash msg]) = posts w) \/
  (method request = "POST" /\
   exists file e,
     dict_lookup "file" (files request) = Some file /\
     upload_file E request w = (Raise e, w) /\
     (run_reader E (reader_for (filename file)) file = Raise e \/
      (process_file E file = Ok (Some [], None) /\ e = ZeroDivisionError))) \/
  (method request = "POST" /\
   exists file reviews results summary w',
     dict_lookup "file" (files request) = Some file /\
     process_file E file = Ok (Some reviews, None) /\
     upload_file E request w = (Ok (RenderResults results summary), w') /\
     reviews <> [] /\
     reviews_of results = reviews /\
     dict_keys summary = ["positive"; "negative"; "neutral"] /\
     (length (posts w) < length (posts w'))%nat) \/
  (method request = "POST" /\
   exists file reviews e w',
     dict_lookup "file" (files request) = Some file /\
     process_file E file = Ok (Some reviews, None) /\
     upload_file E request w = (Raise e, w') /\
     reviews <> [] /\
     body_error e /\
     ~ well_behaved E /\
     (length (posts w) < length (posts w'))%nat).
Proof.
  destruct (upload_cases E request w)
    as [H | [(Hm & msg & Hin & Hup) | [(Hm & file & e & Hf & _ & Hup & He)
       | (Hm & file & reviews & Hf & _ & Hp & Hne & Hup)]]].
  - now left.
  - right; left. split; [exact Hm |]. exists msg.
    repeat (split; [first [assumption | reflexivity] |]). apply posts_flash.
  - right; right; left. split; [exact Hm |]. exists file, e. tauto.
  - destruct (analyse_reviews_cases E reviews w Hne)
      as [(t & w' & Hloop & Hrun & Hposts)
         | (e & w' & He & Hnot & Hrun & Hposts)].
    + right; right; right; left. split; [exact Hm |].
      destruct (completed_loop E reviews w w' t Hloop) as (_ & Hrev & _).
      exists file, reviews. eexists _, _, w'.
      split; [exact Hf |]. split; [exact Hp |].
      split; [rewrite Hup; exact Hrun |].
      split; [exact Hne |]. split; [exact Hrev |].
      split; [reflexivity | exact Hposts].
    + right; right; right; right. split; [exact Hm |].
      exists file, reviews, e, w'.
      split; [exact Hf |]. split; [exact Hp |].
      split; [rewrite Hup; exact Hrun |]. tauto.
Qed.

(** X11: the API is never called for nothing.  If handling a request
    posts to the API at all, the request was a POST whose file passed
    [allowed_file] and was ingested into a non-empty list of reviews; the
    handler then goes on to render the results, unless a response body
    that is not of the documented shape makes it raise. *)
Theorem api_called_only_after_ingestion (E : Env) (request : FlaskRequest)
    (w : World) :
  posts (snd (upload_file E request w)) <> posts w ->
  method request = "POST" /\
  exists file reviews,
    dict_lookup "file" (files request) = Some file /\
    allowed_file (filename file) = Ok true /\
    process_file E file = Ok (Some reviews, None) /\
    reviews <> [] /\
    ((exists results summary,
         fst (upload_file E request w) = Ok (RenderResults results summary)) \/
     (exists e,
         fst (upload_file E request w) = Raise e /\
         body_error e /\ ~ well_behaved E)).
Proof.
  intros Hposts.
  destruct (upload_cases E request w)
    as [(_ & Hup) | [(Hm & msg & Hin & Hup) | [(Hm & file & e & _ & _ & Hup & _)
       | (Hm & file & reviews & Hf & Hal & Hp & Hne & Hup)]]].
  - rewrite Hup in Hposts. now contradiction Hposts.
  - rewrite Hup in Hposts. cbn [snd] in Hposts.
    now rewrite posts_flash in Hposts.
  - rewrite Hup in Hposts. now contradiction Hposts.
  - split; [exact Hm |].
    exists file, reviews.
    repeat (split; [assumption |]). rewrite Hup.
    destruct (analyse_reviews_cases E reviews w Hne)
      as [(t & w' & _ & Hrun & _) | (e & w' & He & Hnot & Hrun & _)];
      rewrite Hrun; cbn [fst].
    + left. eauto.
    + right. exists e. auto.
Qed.

Lemma api_called_only_after_ingestion_witness :
  method (upload_of "reviews.csv") = "POST" /\
  exists file reviews,
    dict_lookup "file" (files (upload_of "reviews.csv")) = Some file /\
    allowed_file (filename file) = Ok true /\
    process_file (sample_env three_reviews null_message_network []) file
      = Ok (Some reviews, None) /\
    reviews <> [] /\
    ((exists results summary,
         fst (upload_file (sample_env three_reviews null_message_network [])
                          (upload_of "reviews.csv") [])
         = Ok (RenderResults results summary)) \/
     (exists e,
         fst (upload_file (sample_env three_reviews null_message_network [])
                          (upload_of "reviews.csv") [])
         = Raise e /\
         body_error e /\
         ~ well_behaved (sample_env three_reviews null_message_network []))).
Proof.
  apply (api_called_only_after_ingestion
           (sample_env three_reviews null_message_network [])
           (upload_of "reviews.csv") []).
  vm_compute. discriminate.
Defined.

(* ================================================================== *)
(** ** Further properties: the proportions *)

Lemma hundredth_in_unit (k : Z) :
  0 <= k <= 100 ->
  (0 <= F2Q (nearest k 100))%Q /\ (F2Q (nearest k 100) <= 1)%Q.
Proof.
  intros Hk.
  assert (Hcases : k = 0 \/ k = 100 \/ 1 <= k <= 99) by lia.
  destruct Hcases as [-> | [-> | Hmid]].
  - split; vm_compute; discriminate.
  - split; vm_compute; discriminate.
  - destruct (nearest_error k 100 ltac:(lia) ltac:(lia))
      as (m & e & _ & _ & Hlo & Hhi).
    assert (H1 : (1 <= inject_Z k)%Q)
      by (change 1%Q with (inject_Z 1); rewrite <- Zle_Qle; lia).
    assert (H99 : (inject_Z k <= 99)%Q)
      by (change 99%Q with (inject_Z 99); rewrite <- Zle_Qle; lia).
    change (inject_Z 100) with 100%Q in *.
    change (2 ^ 53)%positive with 9007199254740992%positive in *.
    assert (Hd : (inject_Z k / 100 == inject_Z k * (1 # 100))%Q) by reflexivity.
    rewrite Hd in Hlo, Hhi. split; lra.
Qed.

Lemma summary_lookup (bucket : string) (p n u v : pyfloat) :
  dict_lookup bucket [("positive", p); ("negative", n); ("neutral", u)]
    = Some v ->
  v = p \/ v = n \/ v = u.
Proof.
  unfold dict_lookup. cbn [find fst snd].
  destruct (String.eqb "positive" bucket); [intros H; injection H; auto |].
  destruct (String.eqb "negative" bucket); [intros H; injection H; auto |].
  destruct (String.eqb "neutral" bucket); [intros H; injection H; auto |].
  discriminate.
Qed.

(** X12: every proportion the handler reports is the float nearest to
    [k / 100] for a whole number [k] of hundredths between 0 and 100, so
    it lies between 0 and 1: on every page of results it renders for a
    non-empty list of reviews, and it renders one whenever the network
    keeps to the documented interface. *)
Theorem proportions_in_unit_interval (E : Env) (reviews : list string)
    (w : World) :
  reviews <> [] ->
  let in_unit (summary : dict pyfloat) :=
    forall bucket v,
      dict_lookup bucket summary = Some v ->
      exists k, 0 <= k <= 100 /\ v = nearest k 100 /\
                (0 <= F2Q v)%Q /\ (F2Q v <= 1)%Q in
  (forall resp w',
      analyse_reviews E reviews w = (Ok resp, w') ->
      exists results summary,
        resp = RenderResults results summary /\ in_unit summary) /\
  (well_behaved E ->
   exists results summary w',
     analyse_reviews E reviews w
       = (Ok (RenderResults results summary), w') /\
     in_unit summary).
Proof.
  intros Hne in_unit.
  destruct (analyse_reviews_both E reviews w
              (fun _ summary => in_unit summary) Hne) as [Hall Hwb].
  { intros t w' Hloop.
    destruct (completed_loop_reports E reviews w w' t Hne Hloop)
      as (_ & Hp & Hn & Hu & HN & Hp0 & Hn0 & Hu0 & _).
    rewrite <- Hp, <- Hn, <- Hu in *.
    intros bucket v Hlook.
    assert (Hround : forall count,
               0 <= count <= Z.of_nat (length reviews) ->
               exists k, 0 <= k <= 100 /\
                 py_round (nearest count (Z.of_nat (length reviews))) 2
                   = nearest k 100 /\
                 (0 <= F2Q (py_round (nearest count
                                        (Z.of_nat (length reviews))) 2))%Q /\
                 (F2Q (py_round (nearest count
                                   (Z.of_nat (length reviews))) 2) <= 1)%Q).
    { intros count Hc.
      destruct (proportion_error count _ Hc HN) as (k & Hk & Hk100 & _).
      exists k. split; [exact Hk100 |]. split; [exact Hk |].
      rewrite Hk. now apply hundredth_in_unit. }
    apply summary_lookup in Hlook as [-> | [-> | ->]]; apply Hround;
      assumption. }
  split.
  - intros resp w' H.
    destruct (Hall resp w' H) as (t & summary & -> & HQ).
    exists (results t), summary. split; [reflexivity | exact HQ].
  - intros Hw.
    destruct (Hwb Hw) as (t & summary & w' & Hrun & HQ).
    exists (results t), summary, w'. split; [exact Hrun | exact HQ].
Qed.

Lemma proportions_in_unit_interval_witness :
  exists results summary w',
    analyse_reviews (sample_env three_reviews keyword_network [])
                    ["Great product!"; "It was okay"] []
      = (Ok (RenderResults results summary), w') /\
    forall bucket v,
      dict_lookup bucket summary = Some v ->
      exists k, 0 <= k <= 100 /\ v = nearest k 100 /\
                (0 <= F2Q v)%Q /\ (F2Q v <= 1)%Q.
Proof.
  apply (proj2 (proportions_in_unit_interval
                  (sample_env three_reviews keyword_network [])
                  ["Great product!"; "It was okay"] []
                  ltac:(discriminate))).
  apply sample_networks_well_behaved.
Defined.

Lemma nearest_self (n : Z) : 0 < n -> nearest n n = Float (2 ^ 52) (-52).
Proof.
  intros Hn. unfold nearest.
  destruct (n =? 0) eqn:H0; [apply Z.eqb_eq in H0; lia |].
  rewrite Z.abs_eq, Z.sgn_pos by lia. unfold nearest_pos. cbv zeta.
  assert (Hs : 0 <= Z.log2_up n) by apply Z.log2_up_nonneg.
  assert (Hex : Z.log2 (n * 2 ^ Z.log2_up n / n) - Z.log2_up n = 0).
  { rewrite (Z.mul_comm n), Z.div_mul by lia.
    rewrite Z.log2_pow2 by exact Hs. lia. }
  rewrite Hex.
  change (Z.max (0 - 52) (-1074)) with (-52).
  change (0 <=? -52) with false. cbv iota.
  change (- -52) with 52.
  assert (Hm : rne_div (n * 2 ^ 52) n = 2 ^ 52).
  { unfold rne_div. cbv zeta.
    rewrite (Z.mul_comm n), Z.div_mul, Z.mod_mul by lia.
    destruct (2 * 0 <? n) eqn:Hlt; [reflexivity |].
    apply Z.ltb_ge in Hlt. lia. }
  rewrite Hm. reflexivity.
Qed.

(** X13: the ends of the scale are exact.  On every page of results the
    handler renders for a non-empty list of reviews, a bucket that holds
    none of the reviews is reported as the float 0.0, and a bucket that
    holds all of them as the float 1.0; it renders one whenever the
    network keeps to the documented interface. *)
Theorem empty_and_full_buckets_exact (E : Env) (reviews : list string)
    (w : World) :
  reviews <> [] ->
  let exact_ends (t : Tally) (summary : dict pyfloat) :=
    let labels := labels_of (results t) in
    forall bucket count,
      In (bucket, count)
         [("positive", occurrences "positive" labels);
          ("negative", occurrences "negative" labels);
          ("neutral",
           occurrences "neutral" labels + occurrences "unknown" labels)] ->
      (count = 0 -> dict_lookup bucket summary = Some (Float 0 0)) /\
      (count = Z.of_nat (length reviews) ->
       dict_lookup bucket summary = Some (Float (2 ^ 52) (-52))) in
  (F2Q (Float 0 0) == 0)%Q /\ (F2Q (Float (2 ^ 52) (-52)) == 1)%Q /\
  (forall resp w',
      analyse_reviews E reviews w = (Ok resp, w') ->
      exists t summary,
        resp = RenderResults (results t) summary /\ exact_ends t summary) /\
  (well_behaved E ->
   exists t summary w',
     analyse_reviews E reviews w
       = (Ok (RenderResults (results t) summary), w') /\
     exact_ends t summary).
Proof.
  intros Hne exact_ends.
  split; [reflexivity |]. split; [reflexivity |].
  apply (analyse_reviews_both E reviews w exact_ends Hne).
  intros t w' Hloop.
  destruct (completed_loop_reports E reviews w w' t Hne Hloop)
    as (_ & Hp & Hn & Hu & HN & _).
  unfold exact_ends, summary_of. cbv zeta.
  rewrite <- Hp, <- Hn, <- Hu.
  assert (Hzero : py_round (nearest 0 (Z.of_nat (length reviews))) 2
                  = Float 0 0) by reflexivity.
  assert (Hone : py_round (nearest (Z.of_nat (length reviews))
                                   (Z.of_nat (length reviews))) 2
                 = Float (2 ^ 52) (-52)).
  { rewrite nearest_self by exact HN. vm_compute. reflexivity. }
  intros bucket count [H | [H | [H | []]]]; injection H as <- <-;
    (split; intros Hc; rewrite Hc; cbn [dict_lookup find fst snd String.eqb
       Ascii.eqb Bool.eqb];
     [now rewrite Hzero | now rewrite Hone]).
Qed.

Lemma empty_and_full_buckets_exact_witness :
  exists t summary w',
    analyse_reviews (sample_env three_reviews busy_network [])
                    ["Great product!"; "It was okay"] []
      = (Ok (RenderResults (results t) summary), w') /\
    let labels := labels_of (results t) in
    forall bucket count,
      In (bucket, count)
         [("positive", occurrences "positive" labels);
          ("negative", occurrences "negative" labels);
          ("neutral",
           occurrences "neutral" labels + occurrences "unknown" labels)] ->
      (count = 0 -> dict_lookup bucket summary = Some (Float 0 0)) /\
      (count = Z.of_nat 2 ->
       dict_lookup bucket summary = Some (Float (2 ^ 52) (-52))).
Proof.
  apply (proj2 (proj2 (proj2 (empty_and_full_buckets_exact
                                (sample_env three_reviews busy_network [])
                                ["Great product!"; "It was okay"] []
                                ltac:(discriminate))))).
  apply sample_networks_well_behaved.
Defined.
